(** * Vehicle rental backend: bookings, availability and review rollups

    A shallow embedding of the Mongoose models [Booking], [Vehicle] and
    [Review] and of the Express controllers that drive them.

    Conventions.
    - A MongoDB collection is a finite map from [_id] to document.
    - A JavaScript [Date] is its [getTime()] value, an integer number of
      milliseconds; a JavaScript [Number] holding a price or a rating is an
      exact rational, so the rounding of IEEE doubles is not modelled.
    - A JavaScript string is a Rocq string with one character for each
      UTF-16 code unit ([code_units]); the text covered is the text whose
      code units are below 256. [String.length] is then the [.length]
      that the schema's [maxlength] compares. The [isLength] of
      express-validator is modelled with its own measure, which leaves
      out surrogate pairs and variation selectors; on the text covered
      the two agree ([isLength_max_maxlength]).
    - The [createdAt] and [updatedAt] paths that [timestamps: true] adds
      to a schema are not part of the documents; every statement is about
      the other paths.
    - A handler is a function from the request and the database to the new
      database and the JSON response; [await] is sequential composition.
    - What the handlers read from outside (the clock, the [_id] the driver
      gives a new document) is passed in explicitly. *)

From Stdlib Require Import ZArith QArith Qround Ascii String List Lia Lqa.
From stdpp Require Import base option gmap fin_maps.

Close Scope Q_scope.
Local Open Scope Z_scope.

(** An ObjectId. Request parameters checked by [isMongoId] are taken as
    already well formed. *)
Abbreviation ObjectId := positive.

(** ** Mongoose plumbing shared by the models *)

Inductive MongooseError :=
| ValidationError (message : string)
| DuplicateKeyError.

(** [maxlength] validator of a string path: it compares [.length], the
    number of code units. *)
Definition maxlength (n : nat) (s : string) : bool :=
  Nat.leb (String.length s) n.

(** [maxlength] on an optional path: an absent value is not validated. *)
Definition maxlength_opt (n : nat) (o : option string) : bool :=
  match o with
  | Some s => maxlength n s
  | None => true
  end.

(** The UTF-16 code units of a string. *)
Definition code_units (s : string) : list N :=
  List.map N_of_ascii (list_ascii_of_string s).

(** The matches of [/(\uFE0F|\uFE0E)/g]. *)
Definition presentation_sequences (l : list N) : nat :=
  length (List.filter (fun c => N.eqb c 65039 || N.eqb c 65038) l).

Definition is_high_surrogate (c : N) : bool := N.leb 55296 c && N.leb c 56319.
Definition is_low_surrogate (c : N) : bool := N.leb 56320 c && N.leb c 57343.

(** The matches of [/[\uD800-\uDBFF][\uDC00-\uDFFF]/g], left to right
    and without overlap. *)
Fixpoint surrogate_pairs (l : list N) : nat :=
  match l with
  | [] => 0
  | hi :: rest =>
      match rest with
      | [] => 0
      | lo :: t =>
          if is_high_surrogate hi && is_low_surrogate lo
          then S (surrogate_pairs t)
          else surrogate_pairs rest
      end
  end.

(** [isLength({ max })] of express-validator: the length less the
    variation selectors and the surrogate pairs, compared with [max]. *)
Definition isLength_max (n : nat) (s : string) : bool :=
  let l := code_units s in
  Nat.leb (length l - presentation_sequences l - surrogate_pairs l) n.

(** [.optional().isLength({ max })]: an absent value is not validated. *)
Definition isLength_max_opt (n : nat) (o : option string) : bool :=
  match o with
  | Some s => isLength_max n s
  | None => true
  end.

(** The white space and line terminators of JavaScript below 256: TAB,
    LF, VT, FF, CR, SP and NBSP. *)
Definition is_whitespace (c : ascii) : bool :=
  let n := nat_of_ascii c in
  (Nat.leb 9 n && Nat.leb n 13) || Nat.eqb n 32 || Nat.eqb n 160.

Fixpoint ltrim (s : string) : string :=
  match s with
  | EmptyString => EmptyString
  | String c s' => if is_whitespace c then ltrim s' else s
  end.

Fixpoint rtrim (s : string) : string :=
  match s with
  | EmptyString => EmptyString
  | String c s' =>
      match rtrim s' with
      | EmptyString => if is_whitespace c then EmptyString else String c EmptyString
      | t => String c t
      end
  end.

(** [String.prototype.trim], also the [trim] sanitizer of the chains. *)
Definition trim (s : string) : string := rtrim (ltrim s).

(** [required] on a string path rejects the empty string. *)
Definition required (s : string) : bool :=
  negb (String.eqb s EmptyString).

(** Truthiness of an optional string: [undefined] and [''] are falsy. *)
Definition truthy (o : option string) : bool :=
  match o with
  | Some s => negb (String.eqb s EmptyString)
  | None => false
  end.

(** [Math.ceil(a / b)] for integers [a] and a positive integer [b]. *)
Definition Math_ceil_div (a b : Z) : Z := - ((- a) / b).

(** [Math.round(x)]: the nearest integer, halves rounded up. *)
Definition Math_round (x : Q) : Z := Qfloor (x + (1 # 2))%Q.

(** ** models/Vehicle.js *)

Module Vehicle.

Record doc := {
  owner : ObjectId;
  name : string;
  pricePerDay : Q;
  availability : bool;
  averageRating : Q;
  totalReviews : Z
}.

(** [findByIdAndUpdate(id, { averageRating, totalReviews })] *)
Definition set_rating (avg : Q) (n : Z) (v : doc) : doc :=
  {| owner := owner v;
     name := name v;
     pricePerDay := pricePerDay v;
     availability := availability v;
     averageRating := avg;
     totalReviews := n |}.

End Vehicle.

(** ** models/Booking.js *)

Module Booking.

Inductive Status :=
| pending | approved | rejected | active | completed | cancelled.

Inductive PaymentStatus :=
| pay_pending | pay_paid | pay_failed | pay_refunded.

Record doc := {
  userId : ObjectId;
  vehicleId : ObjectId;
  startDate : Z;
  endDate : Z;
  totalPrice : Q;
  status : Status;
  pickupLocation : string;
  dropoffLocation : string;
  specialRequests : option string;
  paymentStatus : PaymentStatus;
  cancellationReason : option string;
  adminNotes : option string
}.

Definition Status_eqb (a b : Status) : bool :=
  match a, b with
  | pending, pending | approved, approved | rejected, rejected
  | active, active | completed, completed | cancelled, cancelled => true
  | _, _ => false
  end.

(** The enum of the [status] path, as the strings of the wire format. *)
Definition Status_to_string (s : Status) : string :=
  match s with
  | pending => "pending"
  | approved => "approved"
  | rejected => "rejected"
  | active => "active"
  | completed => "completed"
  | cancelled => "cancelled"
  end.

Definition Status_enum : list Status :=
  [pending; approved; rejected; active; completed; cancelled].

(** [[...].includes(status)] followed by the cast to the enum. *)
Definition Status_of_string (s : string) : option Status :=
  List.find (fun c => String.eqb (Status_to_string c) s) Status_enum.

(** [status: { $in: ['approved', 'active'] }] *)
Definition in_approved_active (s : Status) : bool :=
  match s with
  | approved | active => true
  | _ => false
  end.

(** The filter that [checkAvailability] hands to [findOne]. *)
Definition conflict_query (vehicle : ObjectId) (start finish : Z)
    (excludeBookingId : option ObjectId) (id : ObjectId) (b : doc) : bool :=
  Pos.eqb (vehicleId b) vehicle
  && in_approved_active (status b)
  && (Z.ltb (startDate b) finish && Z.gtb (endDate b) start)
  && match excludeBookingId with
     | Some x => negb (Pos.eqb id x)
     | None => true
     end.

(** [Model.findOne(query)]: some document that matches, if any. *)
Definition findOne (query : ObjectId -> doc -> bool)
    (coll : gmap positive doc) : option (ObjectId * doc) :=
  List.find (fun kb => query (fst kb) (snd kb)) (map_to_list coll).

(** [bookingSchema.statics.checkAvailability] *)
Definition checkAvailability (coll : gmap positive doc)
    (vehicle : ObjectId) (start finish : Z)
    (excludeBookingId : option ObjectId) : bool :=
  match findOne (conflict_query vehicle start finish excludeBookingId) coll with
  | Some _ => false
  | None => true
  end.

(** Schema validators run by [save] on a new document. [now] is the
    value of [new Date()] read by the [startDate] validator. *)
Definition validate (now : Z) (b : doc) : option MongooseError :=
  if negb (Z.geb (startDate b) now) then
    Some (ValidationError "Start date cannot be in the past")
  else if negb (Z.gtb (endDate b) (startDate b)) then
    Some (ValidationError "End date must be after start date")
  else if negb (Qle_bool 0 (totalPrice b)) then
    Some (ValidationError "Total price cannot be negative")
  else if negb (required (pickupLocation b)) then
    Some (ValidationError "Pickup location is required")
  else if negb (maxlength 200 (pickupLocation b)) then
    Some (ValidationError "Pickup location cannot be more than 200 characters")
  else if negb (required (dropoffLocation b)) then
    Some (ValidationError "Dropoff location is required")
  else if negb (maxlength 200 (dropoffLocation b)) then
    Some (ValidationError "Dropoff location cannot be more than 200 characters")
  else if negb (maxlength_opt 500 (specialRequests b)) then
    Some (ValidationError "Special requests cannot be more than 500 characters")
  else None.

(** [bookingSchema.pre('save')] *)
Definition pre_save (coll : gmap positive doc)
    (isNew modifiedStartDate modifiedEndDate : bool)
    (id : ObjectId) (b : doc) : option MongooseError :=
  if isNew || modifiedStartDate || modifiedEndDate then
    if checkAvailability coll (vehicleId b) (startDate b) (endDate b) (Some id)
    then None
    else Some (ValidationError "Vehicle is not available for the selected dates")
  else None.

(** [Booking.create(fields)]: validate, run the pre-save hook, insert
    under the [_id] the driver generated. An [_id] already in the
    collection is the server's duplicate-key error. *)
Definition create (now : Z) (id : ObjectId) (b : doc)
    (coll : gmap positive doc) : MongooseError + gmap positive doc :=
  match validate now b with
  | Some e => inl e
  | None =>
      match pre_save coll true false false id b with
      | Some e => inl e
      | None =>
          match coll !! id with
          | Some _ => inl DuplicateKeyError
          | None => inr (<[id := b]> coll)
          end
      end
  end.

(** The update documents the controllers pass to [findByIdAndUpdate];
    a path left [None] is not part of the update. *)
Record update := {
  set_status : option Status;
  set_adminNotes : option string;
  set_cancellationReason : option string
}.

Definition apply_update (u : update) (b : doc) : doc :=
  {| userId := userId b;
     vehicleId := vehicleId b;
     startDate := startDate b;
     endDate := endDate b;
     totalPrice := totalPrice b;
     status := default (status b) (set_status u);
     pickupLocation := pickupLocation b;
     dropoffLocation := dropoffLocation b;
     specialRequests := specialRequests b;
     paymentStatus := paymentStatus b;
     cancellationReason :=
       match set_cancellationReason u with
       | Some r => Some r
       | None => cancellationReason b
       end;
     adminNotes :=
       match set_adminNotes u with
       | Some n => Some n
       | None => adminNotes b
       end |}.

(** [runValidators: true]: only the paths present in the update are
    validated; the [status] enum holds by typing. *)
Definition update_validators (u : update) : option MongooseError :=
  if negb (maxlength_opt 500 (set_adminNotes u)) then
    Some (ValidationError "Admin notes cannot be more than 500 characters")
  else if negb (maxlength_opt 200 (set_cancellationReason u)) then
    Some (ValidationError "Cancellation reason cannot be more than 200 characters")
  else None.

(** [Booking.findByIdAndUpdate(id, u, { new: true, runValidators: true })].
    It is a query, not a [save]: no [pre('save')] hook runs. *)
Definition findByIdAndUpdate (id : ObjectId) (u : update)
    (coll : gmap positive doc)
    : MongooseError + (gmap positive doc * option doc) :=
  match update_validators u with
  | Some e => inl e
  | None =>
      match coll !! id with
      | Some b => inr (<[id := apply_update u b]> coll, Some (apply_update u b))
      | None => inr (coll, None)
      end
  end.

End Booking.

(** ** models/Review.js *)

Module Review.

Record doc := {
  userId : ObjectId;
  vehicleId : ObjectId;
  bookingId : ObjectId;
  rating : Z;
  comment : option string
}.

(** The [$match] stage of the aggregation: ratings of the reviews of
    one vehicle. *)
Definition ratings_of (coll : gmap positive doc) (vehicle : ObjectId) : list Z :=
  List.map (fun kr => rating (snd kr))
    (List.filter (fun kr => Pos.eqb (vehicleId (snd kr)) vehicle)
       (map_to_list coll)).

Definition sum (l : list Z) : Z := List.fold_right Z.add 0 l.

(** The value stored in [averageRating] for a non-empty group:
    [Math.round(avgRating * 10) / 10]. *)
Definition rounded_average (rs : list Z) : Q :=
  let avgRating := (inject_Z (sum rs) / inject_Z (Z.of_nat (length rs)))%Q in
  (inject_Z (Math_round (avgRating * inject_Z 10)) / inject_Z 10)%Q.

(** [reviewSchema.statics.calcAverageRating]: a [findByIdAndUpdate] on
    the vehicle, which does nothing when the vehicle is gone. *)
Definition calcAverageRating (coll : gmap positive doc) (vehicle : ObjectId)
    (vehicles : gmap positive Vehicle.doc) : gmap positive Vehicle.doc :=
  let rs := ratings_of coll vehicle in
  match rs with
  | _ :: _ =>
      alter (Vehicle.set_rating (rounded_average rs) (Z.of_nat (length rs)))
        vehicle vehicles
  | [] => alter (Vehicle.set_rating 0%Q 0) vehicle vehicles
  end.

(** The query of the pre-save hook and of the controller:
    [{ _id, userId, vehicleId, status: 'completed' }]. *)
Definition completed_booking (bookings : gmap positive Booking.doc)
    (booking user vehicle : ObjectId) : option Booking.doc :=
  match bookings !! booking with
  | Some b =>
      if Pos.eqb (Booking.userId b) user
         && Pos.eqb (Booking.vehicleId b) vehicle
         && Booking.Status_eqb (Booking.status b) Booking.completed
      then Some b else None
  | None => None
  end.

(** Validators of the [rating] and [comment] paths. *)
Definition validate_rating (r : Z) : option MongooseError :=
  if negb (Z.leb 1 r) then Some (ValidationError "Rating must be at least 1")
  else if negb (Z.leb r 5) then Some (ValidationError "Rating cannot exceed 5")
  else None.

Definition validate (r : doc) : option MongooseError :=
  match validate_rating (rating r) with
  | Some e => Some e
  | None =>
      if negb (maxlength_opt 500 (comment r)) then
        Some (ValidationError "Comment cannot be more than 500 characters")
      else None
  end.

(** [reviewSchema.pre('save')] *)
Definition pre_save (bookings : gmap positive Booking.doc)
    (isNew : bool) (r : doc) : option MongooseError :=
  if isNew then
    match completed_booking bookings (bookingId r) (userId r) (vehicleId r) with
    | Some _ => None
    | None =>
        Some (ValidationError "You can only review vehicles from completed bookings")
    end
  else None.

(** [Review.findOne({ userId, bookingId })], also the unique index. *)
Definition by_user_booking (user booking : ObjectId)
    (id : ObjectId) (r : doc) : bool :=
  Pos.eqb (userId r) user && Pos.eqb (bookingId r) booking.

Definition findOne (query : ObjectId -> doc -> bool)
    (coll : gmap positive doc) : option (ObjectId * doc) :=
  List.find (fun kr => query (fst kr) (snd kr)) (map_to_list coll).

(** The setters of the schema, run when a document is built from fields:
    the [comment] path has [trim: true]. *)
Definition cast (r : doc) : doc :=
  {| userId := userId r;
     vehicleId := vehicleId r;
     bookingId := bookingId r;
     rating := rating r;
     comment := option_map trim (comment r) |}.

(** [doc.save()] of a new document: validate, pre-save hook, insert
    (subject to the [_id] and the [(userId, bookingId)] unique indexes),
    then the [post('save')] hook recomputes the vehicle's rollup. The hook
    does not wait for [calcAverageRating]; its effect is taken at once. *)
Definition save (id : ObjectId) (r : doc)
    (bookings : gmap positive Booking.doc)
    (vehicles : gmap positive Vehicle.doc)
    (coll : gmap positive doc)
    : MongooseError + (gmap positive doc * gmap positive Vehicle.doc) :=
  match validate r with
  | Some e => inl e
  | None =>
      match pre_save bookings true r with
      | Some e => inl e
      | None =>
          match coll !! id, findOne (by_user_booking (userId r) (bookingId r)) coll with
          | None, None =>
              let coll' := <[id := r]> coll in
              inr (coll', calcAverageRating coll' (vehicleId r) vehicles)
          | _, _ => inl DuplicateKeyError
          end
      end
  end.

(** [Review.create(fields)]: build the document, then save it. *)
Definition create (id : ObjectId) (r : doc)
    (bookings : gmap positive Booking.doc)
    (vehicles : gmap positive Vehicle.doc)
    (coll : gmap positive doc)
    : MongooseError + (gmap positive doc * gmap positive Vehicle.doc) :=
  save id (cast r) bookings vehicles coll.

(** The update [{ rating, comment }] of [updateReview]. *)
Definition apply_update (new_rating : option Z) (new_comment : option string)
    (r : doc) : doc :=
  {| userId := userId r;
     vehicleId := vehicleId r;
     bookingId := bookingId r;
     rating := default (rating r) new_rating;
     comment :=
       match new_comment with
       | Some c => Some c
       | None => comment r
       end |}.

(** [Review.findByIdAndUpdate(id, { rating, comment }, { runValidators })]:
    a query; neither [pre('save')] nor [post('save')] runs. The update is
    cast through the setters of the schema, so the comment is trimmed. *)
Definition findByIdAndUpdate (id : ObjectId)
    (new_rating : option Z) (new_comment : option string)
    (coll : gmap positive doc) : MongooseError + gmap positive doc :=
  let new_comment := option_map trim new_comment in
  match from_option validate_rating None new_rating with
  | Some e => inl e
  | None =>
      if negb (maxlength_opt 500 new_comment) then
        inl (ValidationError "Comment cannot be more than 500 characters")
      else inr (alter (apply_update new_rating new_comment) id coll)
  end.

(** [Review.findByIdAndDelete(id)]: a query; [post('remove')] is
    document middleware and does not run. *)
Definition findByIdAndDelete (id : ObjectId)
    (coll : gmap positive doc) : gmap positive doc :=
  delete id coll.

End Review.

(** ** The database and the HTTP layer *)

Record DB := {
  vehicles : gmap positive Vehicle.doc;
  bookings : gmap positive Booking.doc;
  reviews : gmap positive Review.doc
}.

Definition with_bookings (db : DB) (coll : gmap positive Booking.doc) : DB :=
  {| vehicles := vehicles db; bookings := coll; reviews := reviews db |}.

Definition with_reviews (db : DB) (coll : gmap positive Review.doc)
    (vs : gmap positive Vehicle.doc) : DB :=
  {| vehicles := vs; bookings := bookings db; reviews := coll |}.

(** [req.user], as resolved by the auth middleware. *)
Inductive Role := role_user | role_admin.

Record User := { id : ObjectId; role : Role }.

Definition is_admin (u : User) : bool :=
  match role u with
  | role_admin => true
  | role_user => false
  end.

(** [res.status(code).json(...)]: the three envelopes the handlers send. *)
Inductive Response (A : Type) :=
| json_data (code : Z) (data : A)
| json_message (code : Z) (success : bool) (message : string)
| json_errors (code : Z) (message : string) (errors : list string).

Arguments json_data {A} code data.
Arguments json_message {A} code success message.
Arguments json_errors {A} code message errors.

Definition http_status {A : Type} (r : Response A) : Z :=
  match r with
  | json_data c _ => c
  | json_message c _ _ => c
  | json_errors c _ _ => c
  end.

(** The status codes read in the error taxonomy of the API: 400 is a
    validation error (it also carries the illegal-state reply of
    [cancelBooking]), 403 an authorisation error, 404 not found, 500 a
    server error. *)
Inductive ErrorKind :=
| ValidationErr | NotFoundErr | AuthorizationErr | ServerErr.

Definition error_kind {A : Type} (r : Response A) : option ErrorKind :=
  match http_status r with
  | 400 => Some ValidationErr
  | 403 => Some AuthorizationErr
  | 404 => Some NotFoundErr
  | 500 => Some ServerErr
  | _ => None
  end.

(** ** controllers/bookingController.js and routes/bookingRoutes.js *)

Module bookingController.

Record create_body := {
  vehicleId : ObjectId;
  startDate : Z;
  endDate : Z;
  pickupLocation : string;
  dropoffLocation : string;
  specialRequests : option string
}.

Record status_body := {
  status : string;
  adminNotes : option string
}.

(** [bookingValidation] of the route; [now] is the [new Date()] of the
    [startDate] check. [notEmpty], [isMongoId] and [isISO8601] hold by
    typing for the id and the two dates. *)
Definition bookingValidation (now : Z) (body : create_body) : list string :=
  (if Z.leb (startDate body) now
   then ["Start date cannot be in the past"%string] else [])
  ++ (if Z.leb (endDate body) (startDate body)
      then ["End date must be after start date"%string] else [])
  ++ (if required (pickupLocation body)
      then [] else ["Pickup location is required"%string])
  ++ (if isLength_max 200 (pickupLocation body)
      then [] else ["Pickup location cannot exceed 200 characters"%string])
  ++ (if required (dropoffLocation body)
      then [] else ["Dropoff location is required"%string])
  ++ (if isLength_max 200 (dropoffLocation body)
      then [] else ["Dropoff location cannot exceed 200 characters"%string])
  ++ (if isLength_max_opt 500 (specialRequests body)
      then [] else ["Special requests cannot exceed 500 characters"%string]).

Definition msPerDay : Z := 1000 * 3600 * 24.

(** The document [createBooking] hands to [Booking.create], with the
    price computed from the vehicle. *)
Definition new_booking (u : User) (body : create_body) (vehicle : Vehicle.doc)
    : Booking.doc :=
  let start := startDate body in
  let finish := endDate body in
  let timeDiff := finish - start in
  let days := Math_ceil_div timeDiff msPerDay in
  let totalPrice := (inject_Z days * Vehicle.pricePerDay vehicle)%Q in
  {| Booking.userId := id u;
     Booking.vehicleId := vehicleId body;
     Booking.startDate := start;
     Booking.endDate := finish;
     Booking.totalPrice := totalPrice;
     Booking.status := Booking.pending;
     Booking.pickupLocation := pickupLocation body;
     Booking.dropoffLocation := dropoffLocation body;
     Booking.specialRequests := specialRequests body;
     Booking.paymentStatus := Booking.pay_pending;
     Booking.cancellationReason := None;
     Booking.adminNotes := None |}.

(** [createBooking]. [errors] is [validationResult(req)]; [now] and
    [oid] are the clock and the fresh [_id] seen by [Booking.create]. *)
Definition createBooking (now : Z) (oid : ObjectId) (u : User)
    (errors : list string) (body : create_body) (db : DB)
    : DB * Response (ObjectId * Booking.doc) :=
  match errors with
  | _ :: _ => (db, json_errors 400 "Validation failed" errors)
  | [] =>
      match vehicles db !! vehicleId body with
      | None => (db, json_message 404 false "Vehicle not found")
      | Some vehicle =>
          if negb (Vehicle.availability vehicle) then
            (db, json_message 400 false "Vehicle is not available")
          else if negb (Booking.checkAvailability (bookings db)
                          (vehicleId body) (startDate body) (endDate body)
                          None) then
            (db, json_message 400 false
                   "Vehicle is not available for the selected dates")
          else
            let booking := new_booking u body vehicle in
            match Booking.create now oid booking (bookings db) with
            | inl _ =>
                (db, json_message 500 false "Server error while creating booking")
            | inr coll => (with_bookings db coll, json_data 201 (oid, booking))
            end
      end
  end.

(** The route [POST /]: the validation chain, then the handler. *)
Definition post_booking (now_validation now_save : Z) (oid : ObjectId)
    (u : User) (body : create_body) (db : DB)
    : DB * Response (ObjectId * Booking.doc) :=
  createBooking now_save oid u (bookingValidation now_validation body) body db.

(** The update of [updateBookingStatus]:
    [{ status, ...(adminNotes && { adminNotes }) }]. *)
Definition status_update (s : Booking.Status) (notes : option string)
    : Booking.update :=
  {| Booking.set_status := Some s;
     Booking.set_adminNotes := if truthy notes then notes else None;
     Booking.set_cancellationReason := None |}.

(** The update of [cancelBooking]:
    [{ status: 'cancelled', cancellationReason }]. *)
Definition cancel_update (reason : option string) : Booking.update :=
  {| Booking.set_status := Some Booking.cancelled;
     Booking.set_adminNotes := None;
     Booking.set_cancellationReason := reason |}.

(** [updateBookingStatus]. The handler does not read
    [validationResult(req)]. *)
Definition updateBookingStatus (bid : ObjectId) (body : status_body) (db : DB)
    : DB * Response (option Booking.doc) :=
  match Booking.Status_of_string (status body) with
  | None => (db, json_message 400 false "Invalid status")
  | Some s =>
      match bookings db !! bid with
      | None => (db, json_message 404 false "Booking not found")
      | Some _ =>
          match Booking.findByIdAndUpdate bid
                  (status_update s (adminNotes body)) (bookings db) with
          | inl _ =>
              (db, json_message 500 false
                     "Server error while updating booking status")
          | inr (coll, updatedBooking) =>
              (with_bookings db coll, json_data 200 updatedBooking)
          end
      end
  end.

(** [['pending', 'approved'].includes(booking.status)] *)
Definition cancellable (s : Booking.Status) : bool :=
  match s with
  | Booking.pending | Booking.approved => true
  | _ => false
  end.

(** [cancelBooking]. The handler does not read [validationResult(req)]. *)
Definition cancelBooking (u : User) (bid : ObjectId)
    (cancellationReason : option string) (db : DB)
    : DB * Response (option Booking.doc) :=
  match bookings db !! bid with
  | None => (db, json_message 404 false "Booking not found")
  | Some booking =>
      if negb (is_admin u) && negb (Pos.eqb (Booking.userId booking) (id u)) then
        (db, json_message 403 false "Not authorized to cancel this booking")
      else if negb (cancellable (Booking.status booking)) then
        (db, json_message 400 false
               "Booking cannot be cancelled in current status")
      else
        match Booking.findByIdAndUpdate bid (cancel_update cancellationReason)
                (bookings db) with
        | inl _ =>
            (db, json_message 500 false "Server error while cancelling booking")
        | inr (coll, updatedBooking) =>
            (with_bookings db coll, json_data 200 updatedBooking)
        end
  end.

End bookingController.

(** ** controllers/reviewController.js and its routes *)

Module reviewController.

Record create_body := {
  vehicleId : ObjectId;
  bookingId : ObjectId;
  rating : Z;
  comment : option string
}.

(** [reviewValidation] of the route. *)
Definition reviewValidation (body : create_body) : list string :=
  (if Z.leb 1 (rating body) && Z.leb (rating body) 5
   then [] else ["Rating must be between 1 and 5"%string])
  ++ (if isLength_max_opt 500 (comment body)
      then [] else ["Comment cannot exceed 500 characters"%string]).

(** The [trim] sanitizer that ends the [comment] chain rewrites
    [req.body.comment] before the handler runs. *)
Definition sanitize (body : create_body) : create_body :=
  {| vehicleId := vehicleId body;
     bookingId := bookingId body;
     rating := rating body;
     comment := option_map trim (comment body) |}.

(** [createReview]. [oid] is the [_id] of the new review. *)
Definition createReview (oid : ObjectId) (u : User) (errors : list string)
    (body : create_body) (db : DB) : DB * Response (ObjectId * Review.doc) :=
  match errors with
  | _ :: _ => (db, json_errors 400 "Validation failed" errors)
  | [] =>
      match Review.completed_booking (bookings db)
              (bookingId body) (id u) (vehicleId body) with
      | None =>
          (db, json_message 404 false
                 "Completed booking not found or does not belong to you")
      | Some _ =>
          match Review.findOne (Review.by_user_booking (id u) (bookingId body))
                  (reviews db) with
          | Some _ =>
              (db, json_message 400 false "You have already reviewed this booking")
          | None =>
              let review :=
                {| Review.userId := id u;
                   Review.vehicleId := vehicleId body;
                   Review.bookingId := bookingId body;
                   Review.rating := rating body;
                   Review.comment := comment body |} in
              match Review.create oid review (bookings db) (vehicles db)
                      (reviews db) with
              | inl _ =>
                  (db, json_message 500 false "Server error while creating review")
              | inr (coll, vs) =>
                  (with_reviews db coll vs,
                   json_data 201 (oid, Review.cast review))
              end
          end
      end
  end.

(** [updateReview] *)
Definition updateReview (u : User) (errors : list string) (rid : ObjectId)
    (new_rating : option Z) (new_comment : option string) (db : DB)
    : DB * Response (option Review.doc) :=
  match errors with
  | _ :: _ => (db, json_errors 400 "Validation failed" errors)
  | [] =>
      match reviews db !! rid with
      | None => (db, json_message 404 false "Review not found")
      | Some review =>
          if negb (Pos.eqb (Review.userId review) (id u)) then
            (db, json_message 403 false "Not authorized to update this review")
          else
            match Review.findByIdAndUpdate rid new_rating new_comment
                    (reviews db) with
            | inl _ =>
                (db, json_message 500 false "Server error while updating review")
            | inr coll =>
                (with_reviews db coll (vehicles db), json_data 200 (coll !! rid))
            end
      end
  end.

(** [deleteReview] *)
Definition deleteReview (u : User) (rid : ObjectId) (db : DB)
    : DB * Response (option Review.doc) :=
  match reviews db !! rid with
  | None => (db, json_message 404 false "Review not found")
  | Some review =>
      if negb (Pos.eqb (Review.userId review) (id u)) && negb (is_admin u) then
        (db, json_message 403 false "Not authorized to delete this review")
      else
        (with_reviews db (Review.findByIdAndDelete rid (reviews db)) (vehicles db),
         json_message 200 true "Review deleted successfully")
  end.

End reviewController.

(** ** The [durationDays] virtual of models/Booking.js *)

Module BookingVirtual.

(** The getter, on the two date paths as the document may hold them. *)
Definition durationDays_of (startDate endDate : option Z) : Z :=
  match startDate, endDate with
  | Some s, Some e =>
      let timeDiff := e - s in
      Math_ceil_div timeDiff (1000 * 3600 * 24)
  | _, _ => 0
  end.

(** Both dates are required paths of a stored booking. *)
Definition durationDays (b : Booking.doc) : Z :=
  durationDays_of (Some (Booking.startDate b)) (Some (Booking.endDate b)).

End BookingVirtual.

(** ** Lists with pagination: [find(filter).sort().skip().limit()] *)

Module Query.

Record Pagination := {
  current : positive;
  pages : Z;
  hasNext : bool;
  hasPrev : bool
}.

Record Listing (A : Type) := {
  count : Z;
  total : Z;
  pagination : Pagination;
  data : list A
}.

Arguments count {A} _.
Arguments total {A} _.
Arguments pagination {A} _.
Arguments data {A} _.

(** [Model.find(filter)] before ordering: the documents that match. *)
Definition find {A : Type} (filter : ObjectId -> A -> bool)
    (coll : gmap positive A) : list (ObjectId * A) :=
  List.filter (fun kd => filter (fst kd) (snd kd)) (map_to_list coll).

(** [.skip((page - 1) * limit).limit(limit)] on the ordered matches.
    [page] and [limit] are positive integers: the handlers are modelled
    on the pages a client can ask for. *)
Definition skip_limit {A : Type} (page limit : positive) (l : list A) : list A :=
  firstn (Pos.to_nat limit)
    (skipn ((Pos.to_nat page - 1) * Pos.to_nat limit) l).

(** The [pagination] object of the reply. *)
Definition paginate (page limit : positive) (total : Z) : Pagination :=
  {| current := page;
     pages := Math_ceil_div total (Z.pos limit);
     hasNext := Z.ltb (Z.pos page) (Math_ceil_div total (Z.pos limit));
     hasPrev := Z.gtb (Z.pos page) 1 |}.

(** The body of a list reply: the page, [countDocuments(filter)] and the
    pagination object. [sort] is the order that the [sort] parameter of
    the request induces on the matches. *)
Definition listing {A : Type} (filter : ObjectId -> A -> bool)
    (sort : list (ObjectId * A) -> list (ObjectId * A))
    (page limit : positive) (coll : gmap positive A)
    : Listing (ObjectId * A) :=
  let docs := skip_limit page limit (sort (find filter coll)) in
  let total := Z.of_nat (length (find filter coll)) in
  {| count := Z.of_nat (length docs);
     total := total;
     pagination := paginate page limit total;
     data := docs |}.

End Query.

(** The documents of a list reply; none when the reply is an error. *)
Definition listed {A : Type} (r : Response (Query.Listing A)) : list A :=
  match r with
  | json_data _ l => Query.data l
  | _ => []
  end.

(** ** controllers/bookingController.js: the read side *)

Module bookingQueries.

Record list_query := {
  page : positive;
  limit : positive;
  status : option string;
  userId : option ObjectId;
  vehicleId : option ObjectId
}.

(** The filter that [getBookings] builds field by field. *)
Record filter := {
  filter_userId : option ObjectId;
  filter_vehicleId : option ObjectId;
  filter_status : option string
}.

Definition build_filter (u : User) (q : list_query) : filter :=
  {| filter_userId := if negb (is_admin u) then Some (id u) else userId q;
     filter_vehicleId := vehicleId q;
     filter_status := if truthy (status q) then status q else None |}.

Definition matches (f : filter) (k : ObjectId) (b : Booking.doc) : bool :=
  match filter_userId f with
  | Some x => Pos.eqb (Booking.userId b) x
  | None => true
  end
  && match filter_vehicleId f with
     | Some x => Pos.eqb (Booking.vehicleId b) x
     | None => true
     end
  && match filter_status f with
     | Some s => String.eqb (Booking.Status_to_string (Booking.status b)) s
     | None => true
     end.

(** The same query for another page. *)
Definition at_page (q : list_query) (p : positive) : list_query :=
  {| page := p;
     limit := limit q;
     status := status q;
     userId := userId q;
     vehicleId := vehicleId q |}.

(** [getBookings] *)
Definition getBookings
    (sort : list (ObjectId * Booking.doc) -> list (ObjectId * Booking.doc))
    (u : User) (q : list_query) (db : DB)
    : Response (Query.Listing (ObjectId * Booking.doc)) :=
  json_data 200
    (Query.listing (matches (build_filter u q)) sort (page q) (limit q)
       (bookings db)).

(** [getBooking]. [users] holds the ids that resolve in the user
    collection: the owner check reads [booking.userId._id] of the
    populated booking, which throws when the user is gone. *)
Definition getBooking (users : gset positive) (u : User) (bid : ObjectId)
    (db : DB) : Response (ObjectId * Booking.doc) :=
  match bookings db !! bid with
  | None => json_message 404 false "Booking not found"
  | Some booking =>
      if is_admin u then json_data 200 (bid, booking)
      else if negb (bool_decide (Booking.userId booking ∈ users)) then
        json_message 500 false "Server error while fetching booking"
      else if negb (Pos.eqb (Booking.userId booking) (id u)) then
        json_message 403 false "Not authorized to access this booking"
      else json_data 200 (bid, booking)
  end.

(** One group of the [$group] stage of [getBookingStats]. *)
Record status_group := {
  group_id : Booking.Status;
  group_count : Z;
  group_revenue : Q
}.

Definition sumQ (l : list Q) : Q := List.fold_right Qplus ((0 # 1)%Q) l.

Definition with_status (s : Booking.Status) (coll : gmap positive Booking.doc)
    : list (ObjectId * Booking.doc) :=
  List.filter (fun kb => Booking.Status_eqb (Booking.status (snd kb)) s)
    (map_to_list coll).

(** [{ $group: { _id: '$status', count: { $sum: 1 },
                 totalRevenue: { $sum: '$totalPrice' } } }]:
    one group for each status that some booking has. *)
Definition group_by_status (coll : gmap positive Booking.doc)
    : list status_group :=
  List.flat_map
    (fun s =>
       match with_status s coll with
       | [] => []
       | l => [ {| group_id := s;
                   group_count := Z.of_nat (length l);
                   group_revenue :=
                     sumQ (List.map (fun kb => Booking.totalPrice (snd kb)) l) |} ]
       end)
    Booking.Status_enum.

Record stats := {
  totalBookings : Z;
  totalRevenue : Q;
  statusBreakdown : list status_group
}.

(** [getBookingStats]; the revenue is [totalRevenue[0]?.total || 0] over
    the completed bookings. *)
Definition getBookingStats (db : DB) : Response stats :=
  let completed := with_status Booking.completed (bookings db) in
  let total :=
    match completed with
    | [] => (0 # 1)%Q
    | l =>
        let t := sumQ (List.map (fun kb => Booking.totalPrice (snd kb)) l) in
        if Qeq_bool t ((0 # 1)%Q) then (0 # 1)%Q else t
    end in
  json_data 200
    {| totalBookings := Z.of_nat (length (map_to_list (bookings db)));
       totalRevenue := total;
       statusBreakdown := group_by_status (bookings db) |}.

End bookingQueries.

(** ** controllers/reviewController.js: the list of reviews *)

Module reviewQueries.

Record list_query := {
  page : positive;
  limit : positive;
  vehicleId : option ObjectId;
  userId : option ObjectId;
  minRating : option Z;
  maxRating : option Z
}.

(** The filter of [getReviews]: the two ids when given, and the rating
    range [{ $gte: minRating, $lte: maxRating }] for the bounds given. *)
Definition matches (q : list_query) (k : ObjectId) (r : Review.doc) : bool :=
  match vehicleId q with
  | Some x => Pos.eqb (Review.vehicleId r) x
  | None => true
  end
  && match userId q with
     | Some x => Pos.eqb (Review.userId r) x
     | None => true
     end
  && match minRating q with
     | Some m => Z.leb m (Review.rating r)
     | None => true
     end
  && match maxRating q with
     | Some m => Z.leb (Review.rating r) m
     | None => true
     end.

(** The same query for another page. *)
Definition at_page (q : list_query) (p : positive) : list_query :=
  {| page := p;
     limit := limit q;
     vehicleId := vehicleId q;
     userId := userId q;
     minRating := minRating q;
     maxRating := maxRating q |}.

(** [getReviews] *)
Definition getReviews
    (sort : list (ObjectId * Review.doc) -> list (ObjectId * Review.doc))
    (q : list_query) (db : DB)
    : Response (Query.Listing (ObjectId * Review.doc)) :=
  json_data 200
    (Query.listing (matches q) sort (page q) (limit q) (reviews db)).

(** [getReview] *)
Definition getReview (rid : ObjectId) (db : DB)
    : Response (ObjectId * Review.doc) :=
  match reviews db !! rid with
  | None => json_message 404 false "Review not found"
  | Some review => json_data 200 (rid, review)
  end.

End reviewQueries.

(** ** The review controller as a transition system *)

Inductive review_op :=
| CreateReview (oid : ObjectId) (u : User) (errors : list string)
    (body : reviewController.create_body)
| UpdateReview (u : User) (errors : list string) (rid : ObjectId)
    (new_rating : option Z) (new_comment : option string)
| DeleteReview (u : User) (rid : ObjectId).

Definition run_review (o : review_op) (db : DB) : DB :=
  match o with
  | CreateReview oid u errors body =>
      fst (reviewController.createReview oid u errors body db)
  | UpdateReview u errors rid new_rating new_comment =>
      fst (reviewController.updateReview u errors rid new_rating new_comment db)
  | DeleteReview u rid => fst (reviewController.deleteReview u rid db)
  end.

(** The route [POST /api/reviews]: the validation chain, then the handler. *)
Definition post_review (oid : ObjectId) (u : User)
    (body : reviewController.create_body) (db : DB)
    : DB * Response (ObjectId * Review.doc) :=
  reviewController.createReview oid u
    (reviewController.reviewValidation body)
    (reviewController.sanitize body) db.

(** ** Vocabulary of the properties *)

(** Two bookings overlap, as half-open intervals. *)
Definition overlap (b1 b2 : Booking.doc) : Prop :=
  Booking.startDate b1 < Booking.endDate b2
  /\ Booking.endDate b1 > Booking.startDate b2.

(** A booking occupies its vehicle while approved or active. *)
Definition occupies (b : Booking.doc) : Prop :=
  Booking.status b = Booking.approved \/ Booking.status b = Booking.active.

(** No two distinct occupying bookings of one vehicle overlap. *)
Definition no_double_booking (coll : gmap positive Booking.doc) : Prop :=
  forall i j b1 b2,
    i <> j ->
    coll !! i = Some b1 -> coll !! j = Some b2 ->
    Booking.vehicleId b1 = Booking.vehicleId b2 ->
    occupies b1 -> occupies b2 ->
    ~ overlap b1 b2.

(** A conflict for the query [(vehicle, start, finish, exclude)]. *)
Definition conflicts (vehicle : ObjectId) (start finish : Z)
    (exclude : option ObjectId) (i : ObjectId) (b : Booking.doc) : Prop :=
  Booking.vehicleId b = vehicle
  /\ occupies b
  /\ exclude <> Some i
  /\ Booking.startDate b < finish /\ Booking.endDate b > start.

(** The rollup stored on vehicle [vid] agrees with the reviews of [vid]:
    the average is the one the aggregation yields and the count is the
    number of reviews, both zero when there is none. *)
Definition rollup_consistent (db : DB) (vid : ObjectId) : Prop :=
  forall v, vehicles db !! vid = Some v ->
    match Review.ratings_of (reviews db) vid with
    | [] => (Vehicle.averageRating v == 0)%Q /\ Vehicle.totalReviews v = 0
    | rs => (Vehicle.averageRating v == Review.rounded_average rs)%Q
            /\ Vehicle.totalReviews v = Z.of_nat (length rs)
    end.

(** At most one review for each pair of user and booking. *)
Definition one_review_per_booking (coll : gmap positive Review.doc) : Prop :=
  forall i j r1 r2,
    i <> j -> coll !! i = Some r1 -> coll !! j = Some r2 ->
    ~ (Review.userId r1 = Review.userId r2
       /\ Review.bookingId r1 = Review.bookingId r2).

(** Every stored rating is one of 1 to 5. *)
Definition ratings_in_range (coll : gmap positive Review.doc) : Prop :=
  forall i r, coll !! i = Some r -> 1 <= Review.rating r <= 5.

(** Every stored booking has its dates in order, resolves to a vehicle,
    and is priced at its whole days times the daily price of that
    vehicle. *)
Definition well_priced (db : DB) : Prop :=
  forall i b, bookings db !! i = Some b ->
    Booking.startDate b < Booking.endDate b
    /\ 1 <= BookingVirtual.durationDays b
    /\ (0 <= Booking.totalPrice b)%Q
    /\ exists v, vehicles db !! Booking.vehicleId b = Some v
                 /\ Booking.totalPrice b
                    = (inject_Z (BookingVirtual.durationDays b)
                       * Vehicle.pricePerDay v)%Q.

(** The paths of a booking that no handler writes after creation. *)
Definition same_rental (b b' : Booking.doc) : Prop :=
  Booking.userId b' = Booking.userId b
  /\ Booking.vehicleId b' = Booking.vehicleId b
  /\ Booking.startDate b' = Booking.startDate b
  /\ Booking.endDate b' = Booking.endDate b
  /\ Booking.totalPrice b' = Booking.totalPrice b
  /\ Booking.pickupLocation b' = Booking.pickupLocation b
  /\ Booking.dropoffLocation b' = Booking.dropoffLocation b
  /\ Booking.specialRequests b' = Booking.specialRequests b
  /\ Booking.paymentStatus b' = Booking.paymentStatus b.

(** The same invariant as a check that runs. *)
Definition overlapb (b1 b2 : Booking.doc) : bool :=
  Z.ltb (Booking.startDate b1) (Booking.endDate b2)
  && Z.gtb (Booking.endDate b1) (Booking.startDate b2).

Definition clashb (p q : ObjectId * Booking.doc) : bool :=
  negb (Pos.eqb (fst p) (fst q))
  && Pos.eqb (Booking.vehicleId (snd p)) (Booking.vehicleId (snd q))
  && Booking.in_approved_active (Booking.status (snd p))
  && Booking.in_approved_active (Booking.status (snd q))
  && overlapb (snd p) (snd q).

Definition no_double_bookingb (coll : gmap positive Booking.doc) : bool :=
  let l := map_to_list coll in
  forallb (fun p => forallb (fun q => negb (clashb p q)) l) l.

(** ** The booking engine as a transition system *)

Inductive op :=
| CreateBooking (now : Z) (oid : ObjectId) (u : User) (errors : list string)
    (body : bookingController.create_body)
| UpdateBookingStatus (bid : ObjectId) (body : bookingController.status_body)
| CancelBooking (u : User) (bid : ObjectId) (cancellationReason : option string).

Definition run (o : op) (db : DB) : DB :=
  match o with
  | CreateBooking now oid u errors body =>
      fst (bookingController.createBooking now oid u errors body db)
  | UpdateBookingStatus bid body =>
      fst (bookingController.updateBookingStatus bid body db)
  | CancelBooking u bid reason =>
      fst (bookingController.cancelBooking u bid reason db)
  end.

(** States reachable from a database without bookings. *)
Inductive reachable : DB -> Prop :=
| reachable_init db : bookings db = ∅ -> reachable db
| reachable_step o db : reachable db -> reachable (run o db).

(** A status update is [vetted] in a state when it does not move a booking
    to approved or active, or when that booking's own interval is
    available once the booking itself is left out. Every other
    operation is vetted. The handlers do not compute this: it is the side
    condition under which the invariant is kept. *)
Definition vetted (o : op) (db : DB) : bool :=
  match o with
  | UpdateBookingStatus bid body =>
      match Booking.Status_of_string (bookingController.status body),
            bookings db !! bid with
      | Some s, Some b =>
          if Booking.in_approved_active s then
            Booking.checkAvailability (bookings db) (Booking.vehicleId b)
              (Booking.startDate b) (Booking.endDate b) (Some bid)
          else true
      | _, _ => true
      end
  | _ => true
  end.

Inductive reachable_vetted : DB -> Prop :=
| reachable_vetted_init db : bookings db = ∅ -> reachable_vetted db
| reachable_vetted_step o db :
    reachable_vetted db -> vetted o db = true -> reachable_vetted (run o db).

(** ** Concrete data used to exercise the definitions *)

Module Sample.

Definition car : Vehicle.doc :=
  {| Vehicle.owner := 1%positive;
     Vehicle.name := "car";
     Vehicle.pricePerDay := 100 # 1;
     Vehicle.availability := true;
     Vehicle.averageRating := 0 # 1;
     Vehicle.totalReviews := 0 |}.

Definition alice : User := {| id := 2%positive; role := role_user |}.
Definition root_admin : User := {| id := 1%positive; role := role_admin |}.
Definition bob : User := {| id := 3%positive; role := role_user |}.

(** One vehicle, with [_id] 7, and nothing else. *)
Definition db0 : DB :=
  {| vehicles := {[ 7%positive := car ]}; bookings := ∅; reviews := ∅ |}.

Definition hour : Z := 1000 * 3600.
Definition day : Z := bookingController.msPerDay.

(** A well-formed request for vehicle 7 on [start, finish). *)
Definition request (vehicle : ObjectId) (start finish : Z)
    : bookingController.create_body :=
  {| bookingController.vehicleId := vehicle;
     bookingController.startDate := start;
     bookingController.endDate := finish;
     bookingController.pickupLocation := "airport";
     bookingController.dropoffLocation := "harbour";
     bookingController.specialRequests := None |}.

Definition set_status (s : string) : bookingController.status_body :=
  {| bookingController.status := s; bookingController.adminNotes := None |}.

(** Alice asks for days 1 to 3, Bob for days 2 to 4; both requests are
    pending, so neither blocks the other. *)
Definition two_pending : DB :=
  run (CreateBooking 0 2 bob [] (request 7 (2 * day) (4 * day)))
    (run (CreateBooking 0 1 alice [] (request 7 (1 * day) (3 * day))) db0).

(** The admin approves the first, then the second. *)
Definition one_approved : DB :=
  run (UpdateBookingStatus 1 (set_status "approved")) two_pending.

Definition both_approved : DB :=
  run (UpdateBookingStatus 2 (set_status "approved")) one_approved.

(** Or the first rental runs its course: approved, active, completed. *)
Definition one_completed : DB :=
  run (UpdateBookingStatus 1 (set_status "completed"))
    (run (UpdateBookingStatus 1 (set_status "active")) one_approved).

(** A third rental by Alice, and all three run to completion. *)
Definition three_completed : DB :=
  run (UpdateBookingStatus 3 (set_status "completed"))
    (run (UpdateBookingStatus 2 (set_status "completed"))
       (run (UpdateBookingStatus 1 (set_status "completed"))
          (run (CreateBooking 0 3 alice [] (request 7 (5 * day) (6 * day)))
             two_pending))).

Definition review (vehicle booking : ObjectId) (stars : Z)
    : reviewController.create_body :=
  {| reviewController.vehicleId := vehicle;
     reviewController.bookingId := booking;
     reviewController.rating := stars;
     reviewController.comment := None |}.

(** The renters review the car with 5, 4 and 3 stars. *)
Definition reviewed_5_4_3 : DB :=
  fst (reviewController.createReview 13 alice [] (review 7 3 3)
    (fst (reviewController.createReview 12 bob [] (review 7 2 4)
      (fst (reviewController.createReview 11 alice [] (review 7 1 5)
         three_completed))))).

(** Alice deletes her 3-star review. *)
Definition after_delete : DB :=
  fst (reviewController.deleteReview alice 13 reviewed_5_4_3).

(** Alice instead turns her 3-star review into a 5-star one. *)
Definition after_update : DB :=
  fst (reviewController.updateReview alice [] 13 (Some 5) None reviewed_5_4_3).

End Sample.

(** * Strings *)

Section Strings.

Lemma code_units_length (s : string) : length (code_units s) = String.length s.
Proof.
  unfold code_units. rewrite List.length_map.
  induction s as [|c s IH]; simpl; [reflexivity | rewrite IH; reflexivity].
Qed.

Lemma code_units_below_256 (s : string) :
  List.Forall (fun c => (c < 256)%N) (code_units s).
Proof.
  unfold code_units. induction s as [|c s IH]; simpl; constructor;
    [apply N_ascii_bounded | exact IH].
Qed.

Lemma presentation_sequences_none (l : list N) :
  List.Forall (fun c => (c < 256)%N) l -> presentation_sequences l = 0%nat.
Proof.
  unfold presentation_sequences. induction 1 as [|c l Hc _ IH]; [reflexivity|].
  simpl. replace (N.eqb c 65039) with false by (symmetry; apply N.eqb_neq; lia).
  replace (N.eqb c 65038) with false by (symmetry; apply N.eqb_neq; lia).
  exact IH.
Qed.

Lemma surrogate_pairs_none (l : list N) :
  List.Forall (fun c => (c < 256)%N) l -> surrogate_pairs l = 0%nat.
Proof.
  induction 1 as [|c l Hc Hl IH]; [reflexivity|].
  destruct l as [|d t]; [reflexivity|].
  cbn [surrogate_pairs]. cbn [surrogate_pairs] in IH.
  unfold is_high_surrogate.
  replace (N.leb 55296 c) with false by (symmetry; apply N.leb_gt; lia).
  simpl andb. exact IH.
Qed.

(** On the strings of the model the measure of [isLength] is the length:
    the chain and the schema bound the same quantity. *)
Lemma isLength_max_maxlength (n : nat) (s : string) :
  isLength_max n s = maxlength n s.
Proof.
  unfold isLength_max, maxlength. cbv zeta.
  rewrite (presentation_sequences_none _ (code_units_below_256 s)),
    (surrogate_pairs_none _ (code_units_below_256 s)), code_units_length.
  rewrite !Nat.sub_0_r. reflexivity.
Qed.

Lemma isLength_max_opt_maxlength (n : nat) (o : option string) :
  isLength_max_opt n o = maxlength_opt n o.
Proof. destruct o; simpl; [apply isLength_max_maxlength | reflexivity]. Qed.

End Strings.

(** * Availability *)

Section Availability.

Implicit Types (coll : gmap positive Booking.doc) (b : Booking.doc).

Lemma in_approved_active_occupies b :
  Booking.in_approved_active (Booking.status b) = true <-> occupies b.
Proof.
  unfold occupies. destruct (Booking.status b); simpl; split;
    intros H; try discriminate; try reflexivity; auto;
    destruct H; discriminate.
Qed.

Lemma conflict_query_spec vehicle start finish exclude i b :
  Booking.conflict_query vehicle start finish exclude i b = true
  <-> conflicts vehicle start finish exclude i b.
Proof.
  unfold Booking.conflict_query, conflicts.
  rewrite !andb_true_iff, Pos.eqb_eq, Z.ltb_lt, Z.gtb_gt,
    in_approved_active_occupies.
  assert (Hex : match exclude with
                | Some x => negb (i =? x)%positive
                | None => true
                end = true <-> exclude <> Some i).
  { destruct exclude as [x|]; [|split; [discriminate | reflexivity]].
    rewrite negb_true_iff, Pos.eqb_neq. split; congruence. }
  rewrite Hex. tauto.
Qed.

Lemma findOne_None query coll :
  Booking.findOne query coll = None
  <-> forall i b, coll !! i = Some b -> query i b = false.
Proof.
  unfold Booking.findOne. split.
  - intros Hnone i b Hib.
    apply (find_none _ _ Hnone (i, b)).
    apply list_elem_of_In, elem_of_map_to_list, Hib.
  - intros Hall.
    destruct (find _ _) as [[i b]|] eqn:Hfind; [|reflexivity].
    apply find_some in Hfind as [Hin Hq]. simpl in Hq.
    apply list_elem_of_In, elem_of_map_to_list in Hin.
    rewrite (Hall _ _ Hin) in Hq. discriminate.
Qed.

Lemma checkAvailability_true coll vehicle start finish exclude :
  Booking.checkAvailability coll vehicle start finish exclude = true
  <-> forall i b, coll !! i = Some b ->
                  ~ conflicts vehicle start finish exclude i b.
Proof.
  unfold Booking.checkAvailability.
  destruct (Booking.findOne _ coll) as [p|] eqn:Hf.
  - split; [discriminate|]. intros Hall. exfalso.
    unfold Booking.findOne in Hf.
    apply find_some in Hf as [Hin Hq]. destruct p as [i b]. simpl in Hq.
    apply list_elem_of_In, elem_of_map_to_list in Hin.
    apply (Hall i b Hin), conflict_query_spec, Hq.
  - split; [|reflexivity]. intros _ i b Hib Hc.
    apply conflict_query_spec in Hc.
    rewrite (proj1 (findOne_None _ _) Hf i b Hib) in Hc. discriminate.
Qed.

Lemma checkAvailability_false coll vehicle start finish exclude :
  Booking.checkAvailability coll vehicle start finish exclude = false
  <-> exists i b, coll !! i = Some b
                  /\ conflicts vehicle start finish exclude i b.
Proof.
  unfold Booking.checkAvailability.
  destruct (Booking.findOne _ coll) as [[i b]|] eqn:Hf.
  - split; [|reflexivity]. intros _. exists i, b.
    unfold Booking.findOne in Hf. apply find_some in Hf as [Hin Hq].
    apply list_elem_of_In, elem_of_map_to_list in Hin.
    split; [exact Hin | apply conflict_query_spec, Hq].
  - split; [discriminate|]. intros (i & b & Hib & Hc).
    apply conflict_query_spec in Hc.
    rewrite (proj1 (findOne_None _ _) Hf i b Hib) in Hc. discriminate.
Qed.

End Availability.

(** C2. [checkAvailability(v, s, e, x)] is [true] exactly when no booking of
    [v] that is approved or active, and is not the excluded one, starts
    before [e] and ends after [s]. In particular a booking that ends at the
    instant [s], or starts at the instant [e], is never a conflict: the
    intervals are half-open. *)
Theorem checkAvailability_iff_no_conflict :
  forall (coll : gmap positive Booking.doc) (v : ObjectId) (s e : Z)
         (x : option ObjectId),
    (Booking.checkAvailability coll v s e x = true
     <-> forall i b,
           coll !! i = Some b ->
           Booking.vehicleId b = v ->
           Booking.status b = Booking.approved
             \/ Booking.status b = Booking.active ->
           x <> Some i ->
           ~ (Booking.startDate b < e /\ Booking.endDate b > s))
    /\ (forall i b, Booking.endDate b = s ->
                    Booking.conflict_query v s e x i b = false)
    /\ (forall i b, Booking.startDate b = e ->
                    Booking.conflict_query v s e x i b = false).
Proof.
  intros coll v s e x. split; [|split].
  - rewrite checkAvailability_true. unfold conflicts, occupies.
    split; intros H i b Hib.
    + intros Hv Hs Hx Ho. apply (H i b Hib). tauto.
    + intros (Hv & Hs & Hx & Ho). apply (H i b Hib Hv Hs Hx Ho).
  - intros i b Hend. unfold Booking.conflict_query.
    replace (Booking.endDate b >? s) with false
      by (symmetry; rewrite Z.gtb_ltb; apply Z.ltb_ge; lia).
    rewrite !andb_false_r. reflexivity.
  - intros i b Hstart. unfold Booking.conflict_query.
    replace (Booking.startDate b <? e) with false
      by (symmetry; apply Z.ltb_ge; lia).
    rewrite !andb_false_r. reflexivity.
Qed.

(** C10. Availability is antitone in the queried interval: if the vehicle
    is available on [s, e) it is available on every [s', e') inside it. *)
Theorem checkAvailability_antitone :
  forall (coll : gmap positive Booking.doc) (v : ObjectId)
         (s s' e' e : Z) (x : option ObjectId),
    s <= s' -> s' < e' -> e' <= e ->
    Booking.checkAvailability coll v s e x = true ->
    Booking.checkAvailability coll v s' e' x = true.
Proof.
  intros coll v s s' e' e x Hs Hlt He.
  rewrite !checkAvailability_true. intros H i b Hib Hc.
  apply (H i b Hib). unfold conflicts in *.
  destruct Hc as (Hv & Ho & Hx & H1 & H2). repeat split; auto; lia.
Qed.

(** The car is approved for days 1 to 3; it is free on days 3 to 6, hence
    on days 4 to 5. *)
Lemma checkAvailability_antitone_witness :
  Booking.checkAvailability (bookings Sample.one_approved) 7
    (4 * Sample.day) (5 * Sample.day) None = true.
Proof.
  apply (checkAvailability_antitone (bookings Sample.one_approved) 7
           (3 * Sample.day) (4 * Sample.day) (5 * Sample.day) (6 * Sample.day)
           None).
  - vm_compute. discriminate.
  - vm_compute. reflexivity.
  - vm_compute. discriminate.
  - vm_compute. reflexivity.
Defined.

(** * The no-double-booking invariant *)

Section Invariant.

Implicit Types (coll : gmap positive Booking.doc) (b : Booking.doc) (db : DB).

Lemma overlap_sym b1 b2 : overlap b1 b2 -> overlap b2 b1.
Proof. unfold overlap. lia. Qed.

Lemma overlapb_spec b1 b2 : overlapb b1 b2 = true <-> overlap b1 b2.
Proof.
  unfold overlapb, overlap. rewrite andb_true_iff, Z.ltb_lt, Z.gtb_gt. tauto.
Qed.

Lemma clashb_spec i j b1 b2 :
  clashb (i, b1) (j, b2) = true
  <-> i <> j /\ Booking.vehicleId b1 = Booking.vehicleId b2
      /\ occupies b1 /\ occupies b2 /\ overlap b1 b2.
Proof.
  unfold clashb. simpl.
  rewrite !andb_true_iff, negb_true_iff, Pos.eqb_neq, Pos.eqb_eq,
    !in_approved_active_occupies, overlapb_spec. tauto.
Qed.

(** The executable check decides the invariant. *)
Lemma no_double_bookingb_spec coll :
  no_double_bookingb coll = true <-> no_double_booking coll.
Proof.
  unfold no_double_bookingb, no_double_booking. rewrite forallb_forall. split.
  - intros H i j b1 b2 Hij H1 H2 Hv Ho1 Ho2 Hov.
    apply elem_of_map_to_list, list_elem_of_In in H1, H2.
    specialize (H _ H1). rewrite forallb_forall in H. specialize (H _ H2).
    apply negb_true_iff in H.
    assert (Hc : clashb (i, b1) (j, b2) = true) by (apply clashb_spec; tauto).
    congruence.
  - intros H [i b1] H1. apply forallb_forall. intros [j b2] H2.
    apply list_elem_of_In, elem_of_map_to_list in H1, H2.
    apply negb_true_iff. destruct (clashb (i, b1) (j, b2)) eqn:Hc; [|reflexivity].
    apply clashb_spec in Hc as (Hij & Hv & Ho1 & Ho2 & Hov).
    exfalso. exact (H i j b1 b2 Hij H1 H2 Hv Ho1 Ho2 Hov).
Qed.

(** Writing one document keeps the invariant as soon as the written
    document, if it occupies its vehicle, overlaps no other occupant. *)
Lemma no_double_booking_insert coll k b' :
  no_double_booking coll ->
  (occupies b' ->
   forall j b2, j <> k -> coll !! j = Some b2 ->
     Booking.vehicleId b2 = Booking.vehicleId b' -> occupies b2 ->
     ~ overlap b' b2) ->
  no_double_booking (<[k := b']> coll).
Proof.
  intros Hinv Hnew i j b1 b2 Hij H1 H2 Hv Ho1 Ho2 Hov.
  destruct (decide (i = k)) as [->|Hik];
    destruct (decide (j = k)) as [->|Hjk]; [congruence | | |].
  - rewrite lookup_insert_eq in H1. injection H1 as <-.
    rewrite lookup_insert_ne in H2 by congruence.
    exact (Hnew Ho1 j b2 Hjk H2 (eq_sym Hv) Ho2 Hov).
  - rewrite lookup_insert_eq in H2. injection H2 as <-.
    rewrite lookup_insert_ne in H1 by congruence.
    exact (Hnew Ho2 i b1 Hik H1 Hv Ho1 (overlap_sym _ _ Hov)).
  - rewrite lookup_insert_ne in H1, H2 by congruence.
    exact (Hinv i j b1 b2 Hij H1 H2 Hv Ho1 Ho2 Hov).
Qed.

Lemma not_occupies_pending b : Booking.status b = Booking.pending -> ~ occupies b.
Proof. intros H [H'|H']; congruence. Qed.

Lemma not_occupies_cancelled b :
  Booking.status b = Booking.cancelled -> ~ occupies b.
Proof. intros H [H'|H']; congruence. Qed.

(** What [Booking.create] leaves behind when it succeeds. *)
Lemma create_inr now oid b coll coll' :
  Booking.create now oid b coll = inr coll' ->
  coll !! oid = None /\ coll' = <[oid := b]> coll.
Proof.
  unfold Booking.create.
  destruct (Booking.validate now b); [discriminate|].
  destruct (Booking.pre_save coll true false false oid b); [discriminate|].
  destruct (coll !! oid); [discriminate|].
  intros [= <-]. split; reflexivity.
Qed.

(** What [Booking.findByIdAndUpdate] leaves behind when it succeeds. *)
Lemma findByIdAndUpdate_inr bid u coll coll' r :
  Booking.findByIdAndUpdate bid u coll = inr (coll', r) ->
  match coll !! bid with
  | Some b => coll' = <[bid := Booking.apply_update u b]> coll
              /\ r = Some (Booking.apply_update u b)
  | None => coll' = coll /\ r = None
  end.
Proof.
  unfold Booking.findByIdAndUpdate.
  destruct (Booking.update_validators u); [discriminate|].
  destruct (coll !! bid); intros [= <- <-]; split; reflexivity.
Qed.

Lemma createBooking_keeps now oid u errors body db :
  no_double_booking (bookings db) ->
  no_double_booking
    (bookings (fst (bookingController.createBooking now oid u errors body db))).
Proof.
  intros Hinv. unfold bookingController.createBooking.
  destruct errors; [|exact Hinv].
  destruct (vehicles db !! _) as [v|]; [|exact Hinv].
  destruct (negb (Vehicle.availability v)); [exact Hinv|].
  destruct (negb (Booking.checkAvailability _ _ _ _ _)); [exact Hinv|].
  cbv zeta.
  destruct (Booking.create _ _ _ _) as [e|coll'] eqn:Hc; [exact Hinv|].
  apply create_inr in Hc as [_ ->]. simpl.
  apply no_double_booking_insert; [exact Hinv|].
  intros Ho. exfalso. revert Ho. apply not_occupies_pending. reflexivity.
Qed.

Lemma cancelBooking_keeps u bid reason db :
  no_double_booking (bookings db) ->
  no_double_booking
    (bookings (fst (bookingController.cancelBooking u bid reason db))).
Proof.
  intros Hinv. unfold bookingController.cancelBooking.
  destruct (bookings db !! bid) as [b|] eqn:Hb; [|exact Hinv].
  destruct (_ && _); [exact Hinv|].
  destruct (negb (bookingController.cancellable _)); [exact Hinv|].
  destruct (Booking.findByIdAndUpdate _ _ _) as [e|[coll' r]] eqn:Hu;
    [exact Hinv|].
  apply findByIdAndUpdate_inr in Hu. rewrite Hb in Hu. destruct Hu as [-> _].
  simpl. apply no_double_booking_insert; [exact Hinv|].
  intros Ho. exfalso. revert Ho. apply not_occupies_cancelled. reflexivity.
Qed.

Lemma updateBookingStatus_keeps bid body db :
  no_double_booking (bookings db) ->
  vetted (UpdateBookingStatus bid body) db = true ->
  no_double_booking
    (bookings (fst (bookingController.updateBookingStatus bid body db))).
Proof.
  intros Hinv Hvet. unfold bookingController.updateBookingStatus.
  unfold vetted in Hvet.
  destruct (Booking.Status_of_string _) as [s|]; [|exact Hinv].
  destruct (bookings db !! bid) as [b|] eqn:Hb; [|exact Hinv].
  destruct (Booking.findByIdAndUpdate _ _ _) as [e|[coll' r]] eqn:Hu;
    [exact Hinv|].
  apply findByIdAndUpdate_inr in Hu. rewrite Hb in Hu. destruct Hu as [-> _].
  simpl. apply no_double_booking_insert; [exact Hinv|].
  intros Ho j b2 Hj H2 Hv Ho2 Hov.
  apply in_approved_active_occupies in Ho. simpl in Ho.
  rewrite Ho in Hvet.
  apply (proj1 (checkAvailability_true _ _ _ _ _) Hvet j b2 H2).
  unfold conflicts. unfold overlap in Hov. simpl in Hov, Hv.
  repeat split; [exact Hv | exact Ho2 | congruence | lia | lia].
Qed.

Lemma run_keeps o db :
  no_double_booking (bookings db) ->
  vetted o db = true ->
  no_double_booking (bookings (run o db)).
Proof.
  destruct o as [now oid u errors body | bid body | u bid reason];
    intros Hinv Hvet; simpl.
  - apply createBooking_keeps, Hinv.
  - apply updateBookingStatus_keeps; assumption.
  - apply cancelBooking_keeps, Hinv.
Qed.

Lemma no_double_booking_empty : no_double_booking ∅.
Proof. intros i j b1 b2 _ H. rewrite lookup_empty in H. discriminate. Qed.

(** Along vetted runs the invariant holds in every state. *)
Lemma reachable_vetted_no_double_booking db :
  reachable_vetted db -> no_double_booking (bookings db).
Proof.
  induction 1 as [db Hempty | o db _ IH Hvet].
  - rewrite Hempty. apply no_double_booking_empty.
  - apply run_keeps; assumption.
Qed.

End Invariant.

(** C1. The code breaks the invariant. Two requests for one vehicle with
    overlapping dates are both stored as pending, since neither blocks
    the other; the admin route then approves the first and, without the
    availability check that [createBooking] and the pre-save hook make,
    the second. The state reached holds two approved bookings of the
    vehicle whose intervals overlap. *)
Lemma double_booking_reachable :
  exists db : DB, reachable db /\ ~ no_double_booking (bookings db).
Proof.
  exists Sample.both_approved. split.
  - unfold Sample.both_approved, Sample.one_approved, Sample.two_pending.
    do 4 apply reachable_step. apply reachable_init. reflexivity.
  - intros H. apply no_double_bookingb_spec in H.
    vm_compute in H. discriminate.
Qed.

(** * Status changes *)

Section Lifecycle.

Implicit Types (b : Booking.doc) (db : DB) (s : Booking.Status).

Lemma Status_of_to_string s :
  Booking.Status_of_string (Booking.Status_to_string s) = Some s.
Proof. destruct s; reflexivity. Qed.

Lemma Status_of_string_enum str s :
  Booking.Status_of_string str = Some s -> str = Booking.Status_to_string s.
Proof.
  unfold Booking.Status_of_string. intros H.
  apply find_some in H as [_ H]. apply String.eqb_eq in H. congruence.
Qed.

Lemma status_update_valid s notes :
  maxlength_opt 500 notes = true ->
  Booking.update_validators (bookingController.status_update s notes) = None.
Proof.
  intros H. unfold Booking.update_validators, bookingController.status_update. simpl.
  destruct (truthy notes); [rewrite H|]; reflexivity.
Qed.

Lemma status_update_invalid s notes :
  maxlength_opt 500 notes = false ->
  exists e, Booking.update_validators (bookingController.status_update s notes)
            = Some e.
Proof.
  intros H. unfold Booking.update_validators, bookingController.status_update.
  simpl. destruct notes as [n|]; [|discriminate]. simpl in H.
  assert (Ht : truthy (Some n) = true).
  { destruct n; [discriminate|reflexivity]. }
  rewrite Ht. simpl. rewrite H. eexists. reflexivity.
Qed.

Lemma cancel_update_valid reason :
  maxlength_opt 200 reason = true ->
  Booking.update_validators (bookingController.cancel_update reason) = None.
Proof.
  intros H. unfold Booking.update_validators, bookingController.cancel_update. simpl.
  rewrite H. reflexivity.
Qed.

Lemma cancellable_iff s :
  bookingController.cancellable s = true
  <-> s = Booking.pending \/ s = Booking.approved.
Proof.
  destruct s; simpl; split; intros H; auto; try discriminate;
    destruct H; discriminate.
Qed.

End Lifecycle.

(** C4. [updateBookingStatus] takes every value of the status enum,
    whatever the current status of the booking: for an existing booking
    the reply is 200 and the stored booking carries the requested status.
    No transition table is consulted; the outcome depends on the current
    booking in no way. The one input that can make the update throw is
    the other field of the body: admin notes beyond the 500 characters of
    the schema, which the handler answers with 500. *)
Theorem updateBookingStatus_accepts_any_status :
  forall (db : DB) (bid : ObjectId) (b : Booking.doc)
         (s : Booking.Status) (notes : option string),
    bookings db !! bid = Some b ->
    let body := {| bookingController.status := Booking.Status_to_string s;
                   bookingController.adminNotes := notes |} in
    let b' := Booking.apply_update (bookingController.status_update s notes) b in
    let out := bookingController.updateBookingStatus bid body db in
    (maxlength_opt 500 notes = true ->
     out = (with_bookings db (<[bid := b']> (bookings db)),
            json_data 200 (Some b'))
     /\ http_status (snd out) = 200
     /\ bookings (fst out) !! bid = Some b')
    /\ Booking.status b' = s
    /\ (maxlength_opt 500 notes = false ->
        out = (db, json_message 500 false
                     "Server error while updating booking status")).
Proof.
  intros db bid b s notes Hb body b' out.
  split; [|split; [reflexivity|]].
  - intros Hn.
    assert (Heq : out = (with_bookings db (<[bid := b']> (bookings db)),
                         json_data 200 (Some b'))).
    { subst out. unfold bookingController.updateBookingStatus, body. simpl.
      rewrite Status_of_to_string, Hb.
      unfold Booking.findByIdAndUpdate.
      rewrite (status_update_valid s notes Hn), Hb. reflexivity. }
    split; [exact Heq|]. rewrite Heq. split; [reflexivity|].
    simpl. apply lookup_insert_eq.
  - intros Hn. subst out.
    unfold bookingController.updateBookingStatus, body. simpl.
    rewrite Status_of_to_string, Hb.
    unfold Booking.findByIdAndUpdate.
    destruct (status_update_invalid s notes Hn) as [e ->]. reflexivity.
Qed.

(** An approved booking is put back to pending by the admin route. *)
Lemma updateBookingStatus_accepts_any_status_witness :
  exists b' : Booking.doc,
    bookings (fst (bookingController.updateBookingStatus 1
                     (Sample.set_status "pending") Sample.one_approved))
      !! 1%positive = Some b'
    /\ Booking.status b' = Booking.pending.
Proof.
  eexists. split.
  - refine (proj2 (proj2 (proj1
      (updateBookingStatus_accepts_any_status
         Sample.one_approved 1 _ Booking.pending None _) _))).
    + vm_compute. reflexivity.
    + reflexivity.
  - reflexivity.
Defined.

(** C5. For an existing booking [cancelBooking] replies 200 only when the
    caller is the owner or an admin and the current status is pending or
    approved, and it does so then (for a cancellation reason within the
    200 characters of the schema); on success the stored status is
    cancelled. In every other status an authorised caller gets the 400
    reply of an illegal state, and whenever the reply is not 200 the
    database is untouched. *)
Theorem cancelBooking_only_from_pending_or_approved :
  forall (db : DB) (u : User) (bid : ObjectId) (b : Booking.doc)
         (reason : option string),
    bookings db !! bid = Some b ->
    let authorised := is_admin u || Pos.eqb (Booking.userId b) (id u) in
    let out := bookingController.cancelBooking u bid reason db in
    (http_status (snd out) = 200 ->
     authorised = true
     /\ (Booking.status b = Booking.pending
         \/ Booking.status b = Booking.approved))
    /\ (authorised = true ->
        Booking.status b = Booking.pending
          \/ Booking.status b = Booking.approved ->
        maxlength_opt 200 reason = true ->
        http_status (snd out) = 200)
    /\ (http_status (snd out) = 200 ->
        exists b', bookings (fst out) !! bid = Some b'
                   /\ Booking.status b' = Booking.cancelled
                   /\ snd out = json_data 200 (Some b'))
    /\ (authorised = true ->
        ~ (Booking.status b = Booking.pending
           \/ Booking.status b = Booking.approved) ->
        out = (db, json_message 400 false
                     "Booking cannot be cancelled in current status"))
    /\ (http_status (snd out) <> 200 -> fst out = db).
Proof.
  intros db u bid b reason Hb authorised out.
  subst out authorised. unfold bookingController.cancelBooking.
  rewrite Hb. unfold Booking.findByIdAndUpdate, Booking.update_validators.
  simpl. rewrite Hb.
  pose proof (cancellable_iff (Booking.status b)) as Hc.
  destruct (is_admin u); destruct (Pos.eqb (Booking.userId b) (id u));
    destruct (bookingController.cancellable (Booking.status b));
    destruct (maxlength_opt 200 reason); simpl;
    repeat split; try (intros; discriminate); try (intros; reflexivity);
    try tauto; try (intros; apply Hc; reflexivity);
    try (intros _ H; apply Hc in H; discriminate);
    try (intros _; eexists; split; [apply lookup_insert_eq|split; reflexivity]);
    try (intros _ H; exfalso; apply H, Hc; reflexivity);
    try (intros H; exfalso; apply H; reflexivity).
Qed.

(** A completed booking cannot be cancelled by its owner. *)
Lemma cancelBooking_only_from_pending_or_approved_witness :
  bookingController.cancelBooking Sample.alice 1 None Sample.one_completed
  = (Sample.one_completed,
     json_message 400 false "Booking cannot be cancelled in current status").
Proof.
  refine (proj1 (proj2 (proj2 (proj2
    (cancelBooking_only_from_pending_or_approved
       Sample.one_completed Sample.alice 1 _ None _)))) _ _).
  - vm_compute. reflexivity.
  - reflexivity.
  - vm_compute. intros [H|H]; discriminate.
Defined.

(** * Frame: the vehicle collection *)

(** C9. No booking operation writes to the vehicle collection: after
    [createBooking], [updateBookingStatus] or [cancelBooking], with any
    arguments and any outcome, every vehicle record, its [availability]
    flag included, is what it was. *)
Theorem booking_operations_leave_vehicles o db :
  vehicles (run o db) = vehicles db
  /\ forall v, Vehicle.availability <$> (vehicles (run o db) !! v)
               = Vehicle.availability <$> (vehicles db !! v).
Proof.
  assert (H : vehicles (run o db) = vehicles db).
  { destruct o as [now oid u errors body | bid body | u bid reason]; simpl.
    - unfold bookingController.createBooking.
      destruct errors; [|reflexivity].
      destruct (vehicles db !! _) as [v|]; [|reflexivity].
      destruct (negb (Vehicle.availability v)); [reflexivity|].
      destruct (negb (Booking.checkAvailability _ _ _ _ _)); [reflexivity|].
      cbv zeta. destruct (Booking.create _ _ _ _); reflexivity.
    - unfold bookingController.updateBookingStatus.
      destruct (Booking.Status_of_string _); [|reflexivity].
      destruct (bookings db !! bid); [|reflexivity].
      destruct (Booking.findByIdAndUpdate _ _ _) as [e|[coll r]]; reflexivity.
    - unfold bookingController.cancelBooking.
      destruct (bookings db !! bid); [|reflexivity].
      destruct (_ && _); [reflexivity|].
      destruct (negb (bookingController.cancellable _)); [reflexivity|].
      destruct (Booking.findByIdAndUpdate _ _ _) as [e|[coll r]]; reflexivity. }
  split; [exact H|]. intros v. rewrite H. reflexivity.
Qed.

(** * Creating a booking *)

Section Creation.

Implicit Types (db : DB) (body : bookingController.create_body).

(** [Math.ceil] of a quotient is the least integer not below it. *)
Lemma Math_ceil_div_bounds a d :
  0 < d ->
  (Math_ceil_div a d - 1) * d < a <= Math_ceil_div a d * d.
Proof.
  intros Hd. unfold Math_ceil_div.
  pose proof (Z.div_mod (- a) d ltac:(lia)) as Hdm.
  pose proof (Z.mod_pos_bound (- a) d Hd) as Hm.
  nia.
Qed.

Lemma Math_ceil_div_unique a d n :
  0 < d -> (n - 1) * d < a <= n * d -> n = Math_ceil_div a d.
Proof.
  intros Hd Hn. pose proof (Math_ceil_div_bounds a d Hd) as Hc. nia.
Qed.

(** A 201 reply of [createBooking] pins down the run of the handler. *)
Lemma createBooking_201 now oid u errors body db :
  http_status (snd (bookingController.createBooking now oid u errors body db))
    = 201 ->
  exists v,
    errors = []
    /\ vehicles db !! bookingController.vehicleId body = Some v
    /\ Vehicle.availability v = true
    /\ Booking.checkAvailability (bookings db)
         (bookingController.vehicleId body)
         (bookingController.startDate body)
         (bookingController.endDate body) None = true
    /\ bookings db !! oid = None
    /\ bookingController.createBooking now oid u errors body db
       = (with_bookings db
            (<[oid := bookingController.new_booking u body v]> (bookings db)),
          json_data 201 (oid, bookingController.new_booking u body v)).
Proof.
  unfold bookingController.createBooking.
  destruct errors; [|discriminate].
  destruct (vehicles db !! _) as [v|]; [|discriminate].
  destruct (Vehicle.availability v) eqn:Hav; [|discriminate]. simpl negb. cbv iota.
  destruct (Booking.checkAvailability _ _ _ _ _) eqn:Hca; [|discriminate].
  simpl negb. cbv iota zeta.
  destruct (Booking.create _ _ _ _) as [e|coll] eqn:Hc; [discriminate|].
  apply create_inr in Hc as [Hfresh ->]. intros _.
  exists v. repeat split; auto.
Qed.

Lemma checkAvailability_exclude coll vehicle start finish x :
  Booking.checkAvailability coll vehicle start finish None = true ->
  Booking.checkAvailability coll vehicle start finish x = true.
Proof.
  rewrite !checkAvailability_true. intros H i b Hib Hc.
  apply (H i b Hib). unfold conflicts in *.
  destruct Hc as (Hv & Ho & _ & Hd). repeat split; try tauto. discriminate.
Qed.

(** A body that passes the route's validation chain. *)
Lemma bookingValidation_nil now body :
  bookingController.bookingValidation now body = [] ->
  now < bookingController.startDate body
  /\ bookingController.startDate body < bookingController.endDate body
  /\ required (bookingController.pickupLocation body) = true
  /\ maxlength 200 (bookingController.pickupLocation body) = true
  /\ required (bookingController.dropoffLocation body) = true
  /\ maxlength 200 (bookingController.dropoffLocation body) = true
  /\ maxlength_opt 500 (bookingController.specialRequests body) = true.
Proof.
  unfold bookingController.bookingValidation. intros H.
  rewrite !isLength_max_maxlength, isLength_max_opt_maxlength in H.
  apply app_eq_nil in H as [H1 H]. apply app_eq_nil in H as [H2 H].
  apply app_eq_nil in H as [H3 H]. apply app_eq_nil in H as [H4 H].
  apply app_eq_nil in H as [H5 H]. apply app_eq_nil in H as [H6 H7].
  destruct (_ <=? now) eqn:E1 in H1; [discriminate|].
  destruct (_ <=? _) eqn:E2 in H2; [discriminate|].
  destruct (required _) in H3 |- *; [|discriminate].
  destruct (maxlength _ _) in H4 |- *; [|discriminate].
  destruct (required _) in H5 |- *; [|discriminate].
  destruct (maxlength _ _) in H6 |- *; [|discriminate].
  destruct (maxlength_opt _ _) in H7 |- *; [|discriminate].
  apply Z.leb_gt in E1, E2. repeat split; assumption.
Qed.

(** Schema validation of the document built from a validated body. *)
Lemma validate_new_booking now0 now u body v :
  bookingController.bookingValidation now0 body = [] ->
  now <= bookingController.startDate body ->
  (0 <= Vehicle.pricePerDay v)%Q ->
  Booking.validate now (bookingController.new_booking u body v) = None.
Proof.
  intros Hval Hnow Hprice.
  apply bookingValidation_nil in Hval
    as (_ & Hse & Hp1 & Hp2 & Hd1 & Hd2 & Hsr).
  unfold Booking.validate, bookingController.new_booking. simpl.
  replace (_ >=? now) with true by (symmetry; apply Z.geb_le; lia).
  replace (bookingController.endDate body >? _) with true
    by (symmetry; apply Z.gtb_lt; lia).
  simpl.
  replace (Qle_bool 0 _) with true.
  - simpl. rewrite Hp1, Hp2, Hd1, Hd2, Hsr. reflexivity.
  - symmetry. apply Qle_bool_iff. apply Qmult_le_0_compat; [|exact Hprice].
    pose proof (Math_ceil_div_bounds
                  (bookingController.endDate body
                   - bookingController.startDate body)
                  bookingController.msPerDay ltac:(reflexivity)) as Hb.
    unfold Qle. simpl. unfold bookingController.msPerDay in *. nia.
Qed.

End Creation.

(** The route turns away a request whose dates are out of order before
    the handler looks at the database. *)
Lemma post_booking_rejects_bad_dates now0 now oid u body db :
  bookingController.endDate body <= bookingController.startDate body ->
  fst (bookingController.post_booking now0 now oid u body db) = db
  /\ http_status (snd (bookingController.post_booking now0 now oid u body db))
     = 400.
Proof.
  intros Hd. unfold bookingController.post_booking,
    bookingController.createBooking.
  destruct (bookingController.bookingValidation now0 body) eqn:Hv;
    [|split; reflexivity].
  apply bookingValidation_nil in Hv. lia.
Qed.

(** C8. For a request that passed validation, [createBooking]
    - replies 404 (not found) when the vehicle id does not resolve;
    - replies 400 (validation) when the vehicle's [availability] is false,
      and when an approved or active booking of the vehicle overlaps the
      requested dates;
    - replies 201 only by inserting the new booking, with status pending;
    - and does reply 201 when the vehicle is available, the dates are
      free, and the document passes the schema (start not yet passed at
      save time, a price that is not negative, an unused [_id]).
    Every failure leaves the database as it was. *)
Theorem createBooking_outcomes :
  forall (now : Z) (oid : ObjectId) (u : User)
         (body : bookingController.create_body) (db : DB),
    let vid := bookingController.vehicleId body in
    let out := bookingController.createBooking now oid u [] body db in
    (vehicles db !! vid = None ->
     out = (db, json_message 404 false "Vehicle not found")
     /\ error_kind (snd out) = Some NotFoundErr)
    /\ (forall v, vehicles db !! vid = Some v ->
          Vehicle.availability v = false ->
          out = (db, json_message 400 false "Vehicle is not available")
          /\ error_kind (snd out) = Some ValidationErr)
    /\ (forall v i b, vehicles db !! vid = Some v ->
          bookings db !! i = Some b ->
          Booking.vehicleId b = vid ->
          Booking.status b = Booking.approved
            \/ Booking.status b = Booking.active ->
          Booking.startDate b < bookingController.endDate body ->
          Booking.endDate b > bookingController.startDate body ->
          fst out = db /\ error_kind (snd out) = Some ValidationErr)
    /\ (http_status (snd out) = 201 ->
        exists b, snd out = json_data 201 (oid, b)
                  /\ Booking.status b = Booking.pending
                  /\ bookings db !! oid = None
                  /\ bookings (fst out) = <[oid := b]> (bookings db))
    /\ (http_status (snd out) <> 201 -> fst out = db)
    /\ (forall v now0, vehicles db !! vid = Some v ->
          Vehicle.availability v = true ->
          Booking.checkAvailability (bookings db) vid
            (bookingController.startDate body)
            (bookingController.endDate body) None = true ->
          bookingController.bookingValidation now0 body = [] ->
          now <= bookingController.startDate body ->
          (0 <= Vehicle.pricePerDay v)%Q ->
          bookings db !! oid = None ->
          http_status (snd out) = 201).
Proof.
  intros now oid u body db vid out. subst vid out.
  split; [|split; [|split; [|split; [|split]]]].
  - intros Hv. unfold bookingController.createBooking. rewrite Hv.
    split; reflexivity.
  - intros v Hv Hav. unfold bookingController.createBooking.
    rewrite Hv, Hav. split; reflexivity.
  - intros v i b Hv Hb Hbv Ho Hs He.
    assert (Hca : Booking.checkAvailability (bookings db)
                    (bookingController.vehicleId body)
                    (bookingController.startDate body)
                    (bookingController.endDate body) None = false).
    { apply checkAvailability_false. exists i, b. split; [exact Hb|].
      unfold conflicts, occupies. repeat split; auto; discriminate. }
    unfold bookingController.createBooking. rewrite Hv, Hca.
    destruct (Vehicle.availability v); split; reflexivity.
  - intros H. apply createBooking_201 in H
      as (v & _ & Hv & Hav & Hca & Hfresh & ->).
    eexists. simpl. repeat split. exact Hfresh.
  - unfold bookingController.createBooking.
    destruct (vehicles db !! _) as [v|]; [|reflexivity].
    destruct (negb (Vehicle.availability v)); [reflexivity|].
    destruct (negb (Booking.checkAvailability _ _ _ _ _)); [reflexivity|].
    cbv zeta. destruct (Booking.create _ _ _ _); simpl; [reflexivity|].
    intros H. exfalso. apply H. reflexivity.
  - intros v now0 Hv Hav Hca Hval Hnow Hprice Hfresh.
    unfold bookingController.createBooking. rewrite Hv, Hav, Hca.
    simpl negb. cbv iota zeta. unfold Booking.create.
    rewrite (validate_new_booking now0 now u body v Hval Hnow Hprice).
    unfold Booking.pre_save. simpl orb. cbv iota.
    change (Booking.vehicleId (bookingController.new_booking u body v))
      with (bookingController.vehicleId body).
    change (Booking.startDate (bookingController.new_booking u body v))
      with (bookingController.startDate body).
    change (Booking.endDate (bookingController.new_booking u body v))
      with (bookingController.endDate body).
    rewrite (checkAvailability_exclude _ _ _ _ (Some oid) Hca), Hfresh.
    reflexivity.
Qed.

(** C6 (as the code has it). Every booking that [createBooking] creates is
    priced at [n] days, where [n] is the least integer with
    [end - start <= n] days, times the vehicle's [pricePerDay]: three days
    cost 3 times the daily price, and 25 hours cost 2 times the daily
    price, since the second day has begun. *)
Theorem createBooking_totalPrice :
  forall (now : Z) (oid : ObjectId) (u : User) (errors : list string)
         (body : bookingController.create_body) (db : DB)
         (k : ObjectId) (b : Booking.doc),
    snd (bookingController.createBooking now oid u errors body db)
      = json_data 201 (k, b) ->
    exists v,
      vehicles db !! bookingController.vehicleId body = Some v
      /\ bookings (fst (bookingController.createBooking now oid u errors body db))
           !! k = Some b
      /\ Booking.startDate b = bookingController.startDate body
      /\ Booking.endDate b = bookingController.endDate body
      /\ Booking.totalPrice b
         = (inject_Z (Math_ceil_div (Booking.endDate b - Booking.startDate b)
                        bookingController.msPerDay)
            * Vehicle.pricePerDay v)%Q
      /\ (forall n,
            (n - 1) * bookingController.msPerDay
              < Booking.endDate b - Booking.startDate b
              <= n * bookingController.msPerDay ->
            Booking.totalPrice b = (inject_Z n * Vehicle.pricePerDay v)%Q)
      /\ (Booking.endDate b - Booking.startDate b
            = 3 * bookingController.msPerDay ->
          Booking.totalPrice b = (inject_Z 3 * Vehicle.pricePerDay v)%Q)
      /\ (Booking.endDate b - Booking.startDate b = 25 * (1000 * 3600) ->
          Booking.totalPrice b = (inject_Z 2 * Vehicle.pricePerDay v)%Q).
Proof.
  intros now oid u errors body db k b Hout.
  assert (H201 : http_status
            (snd (bookingController.createBooking now oid u errors body db))
            = 201) by (rewrite Hout; reflexivity).
  apply createBooking_201 in H201 as (v & _ & Hv & _ & _ & _ & Heq).
  rewrite Heq in Hout |- *. simpl in Hout. injection Hout as <- <-.
  exists v. split; [exact Hv|]. split; [apply lookup_insert_eq|].
  split; [reflexivity|]. split; [reflexivity|]. split; [reflexivity|].
  assert (Hn : forall n,
             (n - 1) * bookingController.msPerDay
               < Booking.endDate (bookingController.new_booking u body v)
                 - Booking.startDate (bookingController.new_booking u body v)
               <= n * bookingController.msPerDay ->
             Booking.totalPrice (bookingController.new_booking u body v)
             = (inject_Z n * Vehicle.pricePerDay v)%Q).
  { intros n Hn. unfold bookingController.new_booking in Hn |- *.
    cbn [Booking.totalPrice Booking.endDate Booking.startDate] in Hn |- *.
    rewrite <- (Math_ceil_div_unique _ bookingController.msPerDay n
                  ltac:(reflexivity) Hn).
    reflexivity. }
  split; [exact Hn|]. split; intros Hd; apply Hn; rewrite Hd;
    unfold bookingController.msPerDay; lia.
Qed.

(** Three days at 100 a day cost 300. *)
Lemma createBooking_totalPrice_witness :
  exists b : Booking.doc,
    snd (bookingController.createBooking 0 1 Sample.alice []
           (Sample.request 7 (1 * Sample.day) (4 * Sample.day)) Sample.db0)
      = json_data 201 (1%positive, b)
    /\ Booking.totalPrice b = (inject_Z 3 * (100 # 1))%Q.
Proof.
  exists (bookingController.new_booking Sample.alice
            (Sample.request 7 (1 * Sample.day) (4 * Sample.day)) Sample.car).
  assert (Hout :
    snd (bookingController.createBooking 0 1 Sample.alice []
           (Sample.request 7 (1 * Sample.day) (4 * Sample.day)) Sample.db0)
    = json_data 201
        (1%positive,
         bookingController.new_booking Sample.alice
           (Sample.request 7 (1 * Sample.day) (4 * Sample.day)) Sample.car))
    by (vm_compute; reflexivity).
  split; [exact Hout|].
  destruct (createBooking_totalPrice _ _ _ _ _ _ _ _ Hout)
    as (v & Hv & _ & _ & _ & _ & _ & H3 & _).
  vm_compute in Hv. injection Hv as <-.
  apply H3. vm_compute. reflexivity.
Defined.

(** C6 (as stated) fails on its own example: a rental of 25 hours at 100 a
    day is charged 200, two days, not one. *)
Lemma createBooking_25_hours_cost_two_days :
  exists (b : Booking.doc) (v : Vehicle.doc),
    snd (bookingController.createBooking 0 1 Sample.alice []
           (Sample.request 7 (1 * Sample.day) (1 * Sample.day + 25 * Sample.hour))
           Sample.db0)
      = json_data 201 (1%positive, b)
    /\ vehicles Sample.db0 !! 7%positive = Some v
    /\ Booking.endDate b - Booking.startDate b = 25 * Sample.hour
    /\ ~ (Booking.totalPrice b == inject_Z 1 * Vehicle.pricePerDay v)%Q
    /\ (Booking.totalPrice b == inject_Z 2 * Vehicle.pricePerDay v)%Q.
Proof.
  eexists. eexists. split; [vm_compute; reflexivity|].
  split; [vm_compute; reflexivity|].
  split; [vm_compute; reflexivity|].
  split; [|vm_compute; reflexivity].
  vm_compute. discriminate.
Qed.

(** * Reviews *)

Section Reviews.

Implicit Types (db : DB) (body : reviewController.create_body).

Lemma Status_eqb_eq a b : Booking.Status_eqb a b = true <-> a = b.
Proof. destruct a, b; simpl; split; intros H; congruence. Qed.

(** The query for a completed booking finds exactly a booking with the
    given id that belongs to the user, is for the vehicle and is
    completed. *)
Lemma completed_booking_Some bookings booking user vehicle b :
  Review.completed_booking bookings booking user vehicle = Some b
  <-> bookings !! booking = Some b
      /\ Booking.userId b = user
      /\ Booking.vehicleId b = vehicle
      /\ Booking.status b = Booking.completed.
Proof.
  unfold Review.completed_booking.
  destruct (bookings !! booking) as [b0|].
  - destruct (_ && _) eqn:Hc.
    + apply andb_true_iff in Hc as [Hc H3]. apply andb_true_iff in Hc as [H1 H2].
      apply Pos.eqb_eq in H1, H2. apply Status_eqb_eq in H3.
      split; [intros [= <-]; auto | intros [[= <-] _]; reflexivity].
    + split; [discriminate|]. intros ([= <-] & H1 & H2 & H3).
      apply Pos.eqb_eq in H1, H2. apply Status_eqb_eq in H3.
      rewrite H1, H2, H3 in Hc. discriminate.
  - split; [discriminate | intros [H _]; discriminate].
Qed.

Lemma completed_booking_None bookings booking user vehicle :
  (forall b, bookings !! booking = Some b ->
     ~ (Booking.userId b = user /\ Booking.vehicleId b = vehicle
        /\ Booking.status b = Booking.completed)) ->
  Review.completed_booking bookings booking user vehicle = None.
Proof.
  intros H.
  destruct (Review.completed_booking bookings booking user vehicle)
    as [b|] eqn:Hc; [|reflexivity].
  apply completed_booking_Some in Hc as (Hb & Hrest).
  exfalso. exact (H b Hb Hrest).
Qed.

(** [Math.round] is within a half of its argument, halves going up. *)
Lemma Math_round_bounds (x : Q) :
  (x - (1 # 2) < inject_Z (Math_round x) <= x + (1 # 2))%Q.
Proof.
  unfold Math_round.
  pose proof (Qfloor_le (x + (1 # 2))) as Hle.
  pose proof (Qlt_floor (x + (1 # 2))) as Hlt.
  rewrite inject_Z_plus in Hlt.
  change (inject_Z 1) with (1 # 1)%Q in Hlt.
  split; lra.
Qed.

(** The stored average is the mean of the ratings to the nearest tenth. *)
Lemma rounded_average_nearest_tenth (rs : list Z) :
  let mean := (inject_Z (Review.sum rs) / inject_Z (Z.of_nat (length rs)))%Q in
  (mean - (1 # 20) < Review.rounded_average rs <= mean + (1 # 20))%Q
  /\ (Review.rounded_average rs * inject_Z 10
      == inject_Z (Math_round (mean * inject_Z 10)))%Q.
Proof.
  intros mean. unfold Review.rounded_average. fold mean.
  pose proof (Math_round_bounds (mean * inject_Z 10)) as Hb.
  set (k := inject_Z (Math_round (mean * inject_Z 10))) in *.
  change (inject_Z 10) with (10 # 1)%Q in *.
  unfold Qdiv. change (/ (10 # 1))%Q with (1 # 10)%Q.
  split; [split|]; lra.
Qed.

(** A 201 reply of [createReview] pins down the run of the handler. *)
Lemma createReview_201 oid u errors body db :
  http_status (snd (reviewController.createReview oid u errors body db)) = 201 ->
  exists b coll,
    Review.completed_booking (bookings db) (reviewController.bookingId body)
      (id u) (reviewController.vehicleId body) = Some b
    /\ reviews db !! oid = None
    /\ coll = <[oid := Review.cast
                          {| Review.userId := id u;
                             Review.vehicleId := reviewController.vehicleId body;
                             Review.bookingId := reviewController.bookingId body;
                             Review.rating := reviewController.rating body;
                             Review.comment := reviewController.comment body |}]>
                (reviews db)
    /\ fst (reviewController.createReview oid u errors body db)
       = with_reviews db coll
           (Review.calcAverageRating coll (reviewController.vehicleId body)
              (vehicles db)).
Proof.
  unfold reviewController.createReview.
  destruct errors; [|discriminate].
  destruct (Review.completed_booking _ _ _ _) as [b|]; [|discriminate].
  destruct (Review.findOne _ _) eqn:Hdup; [discriminate|].
  unfold Review.create, Review.save.
  destruct (Review.validate _); [discriminate|].
  destruct (Review.pre_save _ _ _); [discriminate|].
  destruct (reviews db !! oid) eqn:Hfresh; [discriminate|].
  simpl Review.userId. simpl Review.bookingId. rewrite Hdup.
  intros _. eexists. eexists. repeat split.
Qed.

(** Creating a review recomputes the rollup of its vehicle. *)
Lemma createReview_rollup oid u errors body db :
  http_status (snd (reviewController.createReview oid u errors body db)) = 201 ->
  rollup_consistent (fst (reviewController.createReview oid u errors body db))
    (reviewController.vehicleId body).
Proof.
  intros H. apply createReview_201 in H as (b & coll & _ & _ & _ & ->).
  unfold rollup_consistent, Review.calcAverageRating. simpl.
  intros v. destruct (Review.ratings_of coll _) as [|r rs];
    rewrite lookup_alter_eq;
    destruct (vehicles db !! _) as [v0|]; simpl; intros [= <-]; simpl;
    split; reflexivity.
Qed.

(** Updating and deleting a review go through queries: the vehicle
    collection is not written. *)
Lemma updateReview_vehicles u errors rid new_rating new_comment db :
  vehicles (fst (reviewController.updateReview u errors rid
                   new_rating new_comment db)) = vehicles db.
Proof.
  unfold reviewController.updateReview.
  destruct errors; [|reflexivity].
  destruct (reviews db !! rid); [|reflexivity].
  destruct (negb _); [reflexivity|].
  destruct (Review.findByIdAndUpdate _ _ _ _); reflexivity.
Qed.

Lemma deleteReview_vehicles u rid db :
  vehicles (fst (reviewController.deleteReview u rid db)) = vehicles db.
Proof.
  unfold reviewController.deleteReview.
  destruct (reviews db !! rid); [|reflexivity].
  destruct (_ && _); reflexivity.
Qed.

End Reviews.

(** C7 (as the code has it). When no completed booking exists for the
    user, the vehicle and the booking id of the request, [createReview]
    fails and creates nothing: a request that passed validation is
    answered 404 (not found), any other 400. The ValidationError of the
    claim is what the model's pre-save hook raises for such a review, and
    [Review.create] refuses it; the controller answers before reaching
    it. *)
Theorem createReview_requires_completed_booking :
  forall (oid : ObjectId) (u : User) (errors : list string)
         (body : reviewController.create_body) (db : DB),
    (forall b, bookings db !! reviewController.bookingId body = Some b ->
       ~ (Booking.userId b = id u
          /\ Booking.vehicleId b = reviewController.vehicleId body
          /\ Booking.status b = Booking.completed)) ->
    let out := reviewController.createReview oid u errors body db in
    let review := {| Review.userId := id u;
                     Review.vehicleId := reviewController.vehicleId body;
                     Review.bookingId := reviewController.bookingId body;
                     Review.rating := reviewController.rating body;
                     Review.comment := reviewController.comment body |} in
    fst out = db
    /\ (errors = [] ->
        snd out = json_message 404 false
                    "Completed booking not found or does not belong to you"
        /\ error_kind (snd out) = Some NotFoundErr)
    /\ (errors <> [] -> snd out = json_errors 400 "Validation failed" errors)
    /\ Review.pre_save (bookings db) true review
       = Some (ValidationError
                 "You can only review vehicles from completed bookings")
    /\ (exists e, Review.create oid review (bookings db) (vehicles db)
                    (reviews db) = inl e).
Proof.
  intros oid u errors body db Hnone out review.
  apply completed_booking_None in Hnone.
  subst out. unfold reviewController.createReview.
  assert (Hpre : Review.pre_save (bookings db) true review
                 = Some (ValidationError
                           "You can only review vehicles from completed bookings")).
  { unfold Review.pre_save. subst review. simpl. rewrite Hnone. reflexivity. }
  split; [|split; [|split; [|split]]].
  - destruct errors; [|reflexivity]. rewrite Hnone. reflexivity.
  - intros ->. rewrite Hnone. split; reflexivity.
  - intros He. destruct errors; [congruence|reflexivity].
  - exact Hpre.
  - unfold Review.create, Review.save.
    destruct (Review.validate (Review.cast review)) as [e|];
      [exists e; reflexivity|].
    change (Review.pre_save (bookings db) true (Review.cast review))
      with (Review.pre_save (bookings db) true review).
    rewrite Hpre. eexists. reflexivity.
Qed.

(** Alice's rental is still pending: her review is turned away. *)
Lemma createReview_requires_completed_booking_witness :
  fst (reviewController.createReview 11 Sample.alice []
         (Sample.review 7 1 5) Sample.two_pending) = Sample.two_pending.
Proof.
  refine (proj1 (createReview_requires_completed_booking 11 Sample.alice []
                   (Sample.review 7 1 5) Sample.two_pending _)).
  intros b Hb. vm_compute in Hb. injection Hb as <-.
  intros (_ & _ & H). discriminate.
Defined.

(** C7 (as stated) fails: a well-formed review request for a rental that
    is not completed is answered 404, not found, not with a validation
    error. *)
Lemma createReview_without_completed_booking_is_404 :
  reviewController.reviewValidation (Sample.review 7 1 5) = []
  /\ Review.completed_booking (bookings Sample.two_pending) 1
       (id Sample.alice) 7 = None
  /\ http_status
       (snd (reviewController.createReview 11 Sample.alice
               (reviewController.reviewValidation (Sample.review 7 1 5))
               (Sample.review 7 1 5) Sample.two_pending)) = 404
  /\ error_kind
       (snd (reviewController.createReview 11 Sample.alice
               (reviewController.reviewValidation (Sample.review 7 1 5))
               (Sample.review 7 1 5) Sample.two_pending))
     <> Some ValidationErr.
Proof.
  repeat split; try (vm_compute; reflexivity). vm_compute. discriminate.
Qed.

(** C3, on the claim's own example. After the reviews 5, 4 and 3 are
    created the vehicle shows 4.0 over 3 reviews, as claimed. After the
    3-star review is deleted through [deleteReview] the remaining ratings
    are 5 and 4, whose rollup is 4.5 over 2, yet the vehicle still shows
    4.0 over 3: the delete goes through [findByIdAndDelete], which runs no
    [post('remove')] hook. An edit through [updateReview] leaves the
    rollup stale in the same way. *)
Theorem deleteReview_leaves_rollup_stale :
  (exists v, vehicles Sample.reviewed_5_4_3 !! 7%positive = Some v
             /\ (Vehicle.averageRating v == 4 # 1)%Q
             /\ Vehicle.totalReviews v = 3)
  /\ rollup_consistent Sample.reviewed_5_4_3 7
  /\ http_status
       (snd (reviewController.deleteReview Sample.alice 13 Sample.reviewed_5_4_3))
     = 200
  /\ Review.ratings_of (reviews Sample.after_delete) 7 = [5; 4]
  /\ (Review.rounded_average [5%Z; 4%Z] == 45 # 10)%Q
  /\ (exists v, vehicles Sample.after_delete !! 7%positive = Some v
                /\ (Vehicle.averageRating v == 4 # 1)%Q
                /\ Vehicle.totalReviews v = 3
                /\ ~ (Vehicle.averageRating v == 45 # 10)%Q
                /\ Vehicle.totalReviews v <> 2)
  /\ ~ rollup_consistent Sample.after_delete 7
  /\ ~ rollup_consistent Sample.after_update 7.
Proof.
  split; [|split; [|split; [|split; [|split; [|split; [|split]]]]]].
  - eexists. split; [vm_compute; reflexivity|]. split; vm_compute; reflexivity.
  - apply (createReview_rollup 13 Sample.alice [] (Sample.review 7 3 3)).
    vm_compute. reflexivity.
  - vm_compute. reflexivity.
  - vm_compute. reflexivity.
  - vm_compute. reflexivity.
  - eexists. split; [vm_compute; reflexivity|].
    repeat split; try (vm_compute; reflexivity); vm_compute; discriminate.
  - intros H. unfold rollup_consistent in H.
    specialize (H _ ltac:(vm_compute; reflexivity)).
    vm_compute in H. destruct H as [_ H]. discriminate.
  - intros H. unfold rollup_consistent in H.
    specialize (H _ ltac:(vm_compute; reflexivity)).
    vm_compute in H. destruct H as [H _]. discriminate.
Qed.

(** * Further properties of the booking handlers *)

Section BookingFrames.

Implicit Types (coll : gmap positive Booking.doc) (b : Booking.doc) (db : DB).

Lemma apply_update_same_rental u b : same_rental b (Booking.apply_update u b).
Proof. unfold same_rental. simpl. repeat split. Qed.

Lemma same_rental_refl b : same_rental b b.
Proof. unfold same_rental. repeat split. Qed.

(** The two shapes of the database after [createBooking]. *)
Lemma createBooking_cases now oid u errors body db :
  fst (bookingController.createBooking now oid u errors body db) = db
  \/ exists v,
       vehicles db !! bookingController.vehicleId body = Some v
       /\ bookings db !! oid = None
       /\ Booking.validate now (bookingController.new_booking u body v) = None
       /\ fst (bookingController.createBooking now oid u errors body db)
          = with_bookings db
              (<[oid := bookingController.new_booking u body v]> (bookings db)).
Proof.
  unfold bookingController.createBooking.
  destruct errors; [|left; reflexivity].
  destruct (vehicles db !! _) as [v|] eqn:Hv; [|left; reflexivity].
  destruct (negb (Vehicle.availability v)); [left; reflexivity|].
  destruct (negb (Booking.checkAvailability _ _ _ _ _)); [left; reflexivity|].
  cbv zeta. unfold Booking.create.
  destruct (Booking.validate _ _) eqn:Hval; [left; reflexivity|].
  destruct (Booking.pre_save _ _ _ _ _ _); [left; reflexivity|].
  destruct (bookings db !! oid) eqn:Hfresh; [left; reflexivity|].
  right. exists v. repeat split; auto.
Qed.

(** The two shapes of the database after a status update or a cancel. *)
Lemma updateBookingStatus_cases bid body db :
  fst (bookingController.updateBookingStatus bid body db) = db
  \/ exists b s,
       bookings db !! bid = Some b
       /\ Booking.Status_of_string (bookingController.status body) = Some s
       /\ fst (bookingController.updateBookingStatus bid body db)
          = with_bookings db
              (<[bid := Booking.apply_update
                          (bookingController.status_update s
                             (bookingController.adminNotes body)) b]>
                 (bookings db)).
Proof.
  unfold bookingController.updateBookingStatus.
  destruct (Booking.Status_of_string _) as [s|]; [|left; reflexivity].
  destruct (bookings db !! bid) as [b|] eqn:Hb; [|left; reflexivity].
  destruct (Booking.findByIdAndUpdate _ _ _) as [e|[coll r]] eqn:Hu;
    [left; reflexivity|].
  apply findByIdAndUpdate_inr in Hu. rewrite Hb in Hu. destruct Hu as [-> _].
  right. exists b, s. repeat split.
Qed.

Lemma cancelBooking_cases u bid reason db :
  fst (bookingController.cancelBooking u bid reason db) = db
  \/ exists b,
       bookings db !! bid = Some b
       /\ bookingController.cancellable (Booking.status b) = true
       /\ fst (bookingController.cancelBooking u bid reason db)
          = with_bookings db
              (<[bid := Booking.apply_update
                          (bookingController.cancel_update reason) b]>
                 (bookings db)).
Proof.
  unfold bookingController.cancelBooking.
  destruct (bookings db !! bid) as [b|] eqn:Hb; [|left; reflexivity].
  destruct (_ && _); [left; reflexivity|].
  destruct (bookingController.cancellable _) eqn:Hc; [|left; reflexivity].
  simpl negb. cbv iota.
  destruct (Booking.findByIdAndUpdate _ _ _) as [e|[coll r]] eqn:Hu;
    [left; reflexivity|].
  apply findByIdAndUpdate_inr in Hu. rewrite Hb in Hu. destruct Hu as [-> _].
  right. exists b. repeat split. exact Hc.
Qed.

(** A document that does not occupy its vehicle is invisible to
    [checkAvailability]. *)
Lemma checkAvailability_insert_idle coll k b v s e x :
  coll !! k = None ->
  Booking.in_approved_active (Booking.status b) = false ->
  Booking.checkAvailability (<[k := b]> coll) v s e x
  = Booking.checkAvailability coll v s e x.
Proof.
  intros Hk Hidle. apply Bool.eq_iff_eq_true.
  rewrite !checkAvailability_true. split; intros H i b0 Hi Hc.
  - apply (H i b0); [|exact Hc].
    rewrite lookup_insert_ne; [exact Hi|]. intros ->. congruence.
  - destruct (decide (k = i)) as [->|Hne].
    + rewrite lookup_insert_eq in Hi. injection Hi as <-.
      destruct Hc as (_ & Ho & _). apply in_approved_active_occupies in Ho.
      congruence.
    + rewrite lookup_insert_ne in Hi by exact Hne. exact (H i b0 Hi Hc).
Qed.

(** Overwriting a booking with one that does not occupy the vehicle is,
    for [checkAvailability], the same as leaving that booking out. *)
Lemma checkAvailability_insert_released coll k b b' v s e :
  coll !! k = Some b ->
  Booking.in_approved_active (Booking.status b') = false ->
  Booking.checkAvailability (<[k := b']> coll) v s e None
  = Booking.checkAvailability coll v s e (Some k).
Proof.
  intros Hk Hidle. apply Bool.eq_iff_eq_true.
  rewrite !checkAvailability_true. split; intros H i b0 Hi Hc.
  - destruct Hc as (Hv & Ho & Hx & Hd).
    assert (Hne : k <> i) by congruence.
    apply (H i b0); [rewrite lookup_insert_ne; auto|].
    unfold conflicts. repeat split; try tauto. discriminate.
  - destruct (decide (k = i)) as [->|Hne].
    + rewrite lookup_insert_eq in Hi. injection Hi as <-.
      destruct Hc as (_ & Ho & _). apply in_approved_active_occupies in Ho.
      congruence.
    + rewrite lookup_insert_ne in Hi by exact Hne.
      apply (H i b0 Hi). destruct Hc as (Hv & Ho & Hx & Hd).
      unfold conflicts. repeat split; try tauto. congruence.
Qed.

(** A 200 reply of [cancelBooking] pins down the run of the handler. *)
Lemma cancelBooking_200 u bid reason db :
  http_status (snd (bookingController.cancelBooking u bid reason db)) = 200 ->
  exists b,
    bookings db !! bid = Some b
    /\ is_admin u || Pos.eqb (Booking.userId b) (id u) = true
    /\ bookingController.cancellable (Booking.status b) = true
    /\ bookingController.cancelBooking u bid reason db
       = (with_bookings db
            (<[bid := Booking.apply_update
                        (bookingController.cancel_update reason) b]>
               (bookings db)),
          json_data 200
            (Some (Booking.apply_update
                     (bookingController.cancel_update reason) b))).
Proof.
  unfold bookingController.cancelBooking.
  destruct (bookings db !! bid) as [b|] eqn:Hb; [|discriminate].
  destruct (is_admin u) eqn:Ha;
    destruct (Pos.eqb (Booking.userId b) (id u)) eqn:Ho; simpl;
    try discriminate;
    (destruct (bookingController.cancellable (Booking.status b)) eqn:Hc;
     simpl; [|discriminate]);
    (destruct (Booking.findByIdAndUpdate _ _ _) as [err|[coll r]] eqn:Hu;
     [discriminate|]);
    apply findByIdAndUpdate_inr in Hu; rewrite Hb in Hu;
    destruct Hu as [-> ->]; intros _; exists b; repeat split; assumption.
Qed.

Lemma durationDays_bounds b :
  (BookingVirtual.durationDays b - 1) * 86400000
    < Booking.endDate b - Booking.startDate b
    <= BookingVirtual.durationDays b * 86400000.
Proof.
  unfold BookingVirtual.durationDays, BookingVirtual.durationDays_of.
  cbv zeta. change (1000 * 3600 * 24) with 86400000.
  apply Math_ceil_div_bounds. reflexivity.
Qed.

End BookingFrames.

(** X1. The [durationDays] virtual counts the whole days that cover the
    rental: it is the least number of days not shorter than the rental,
    it is at least 1 exactly when the end date is after the start date,
    and a later end date never lowers it. *)
Theorem durationDays_whole_days :
  forall b : Booking.doc,
    (BookingVirtual.durationDays b - 1) * 86400000
      < Booking.endDate b - Booking.startDate b
      <= BookingVirtual.durationDays b * 86400000
    /\ (1 <= BookingVirtual.durationDays b
        <-> Booking.startDate b < Booking.endDate b)
    /\ (forall b' : Booking.doc,
          Booking.startDate b' = Booking.startDate b ->
          Booking.endDate b <= Booking.endDate b' ->
          BookingVirtual.durationDays b <= BookingVirtual.durationDays b').
Proof.
  intros b. pose proof (durationDays_bounds b) as Hb.
  split; [exact Hb|]. split; [split; intros H; nia|].
  intros b' Hs He. pose proof (durationDays_bounds b') as Hb'. nia.
Qed.

(** X2. Creating a booking never changes what [checkAvailability]
    answers: a new booking is pending, and pending bookings block
    nothing. *)
Theorem createBooking_keeps_availability :
  forall (now : Z) (oid : ObjectId) (u : User) (errors : list string)
         (body : bookingController.create_body) (db : DB)
         (v : ObjectId) (s e : Z) (x : option ObjectId),
    Booking.checkAvailability
      (bookings (fst (bookingController.createBooking now oid u errors body db)))
      v s e x
    = Booking.checkAvailability (bookings db) v s e x.
Proof.
  intros now oid u errors body db v s e x.
  destruct (createBooking_cases now oid u errors body db)
    as [-> | (w & _ & Hfresh & _ & ->)]; [reflexivity|].
  simpl. apply checkAvailability_insert_idle; [exact Hfresh | reflexivity].
Qed.

(** X3. A successful [cancelBooking] releases the dates of the booking:
    afterwards [checkAvailability] answers what it answered before with
    that booking excluded, so nothing that was available stops being
    available. *)
Theorem cancelBooking_releases_dates :
  forall (u : User) (bid : ObjectId) (reason : option string) (db : DB),
    http_status (snd (bookingController.cancelBooking u bid reason db)) = 200 ->
    forall (v : ObjectId) (s e : Z),
      Booking.checkAvailability
        (bookings (fst (bookingController.cancelBooking u bid reason db)))
        v s e None
      = Booking.checkAvailability (bookings db) v s e (Some bid)
      /\ (Booking.checkAvailability (bookings db) v s e None = true ->
          Booking.checkAvailability
            (bookings (fst (bookingController.cancelBooking u bid reason db)))
            v s e None = true).
Proof.
  intros u bid reason db H200 v s e.
  apply cancelBooking_200 in H200 as (b & Hb & _ & _ & ->). simpl.
  rewrite (checkAvailability_insert_released _ _ b
             (Booking.apply_update (bookingController.cancel_update reason) b)
             v s e Hb eq_refl).
  split; [reflexivity | apply checkAvailability_exclude].
Qed.

(** Once the approved booking of days 1 to 3 is cancelled by its owner,
    days 2 to 4 are free. *)
Lemma cancelBooking_releases_dates_witness :
  Booking.checkAvailability
    (bookings (fst (bookingController.cancelBooking Sample.alice 1 None
                      Sample.one_approved)))
    7 (2 * Sample.day) (4 * Sample.day) None
  = Booking.checkAvailability (bookings Sample.one_approved)
      7 (2 * Sample.day) (4 * Sample.day) (Some 1%positive).
Proof.
  refine (proj1 (cancelBooking_releases_dates Sample.alice 1 None
                   Sample.one_approved _ 7 (2 * Sample.day) (4 * Sample.day))).
  vm_compute. reflexivity.
Defined.



(** X5. No booking handler deletes a booking or rewrites the rental it
    records: whatever the operation and its outcome, a stored booking is
    still stored afterwards under the same id, with the same user,
    vehicle, dates, price, locations, requests and payment status. *)
Theorem bookings_are_never_deleted :
  forall (o : op) (db : DB) (i : ObjectId) (b : Booking.doc),
    bookings db !! i = Some b ->
    exists b', bookings (run o db) !! i = Some b' /\ same_rental b b'.
Proof.
  intros o db i b Hb.
  assert (Hupd : forall k (b0 : Booking.doc) upd,
            bookings db !! k = Some b0 ->
            exists b', <[k := Booking.apply_update upd b0]> (bookings db) !! i
                       = Some b' /\ same_rental b b').
  { intros k b0 upd Hk. destruct (decide (k = i)) as [->|Hne].
    - rewrite lookup_insert_eq. eexists. split; [reflexivity|].
      rewrite Hb in Hk. injection Hk as <-. apply apply_update_same_rental.
    - rewrite lookup_insert_ne by exact Hne. exists b.
      split; [exact Hb | apply same_rental_refl]. }
  destruct o as [now oid u errors body | bid body | u bid reason]; simpl.
  - destruct (createBooking_cases now oid u errors body db)
      as [-> | (w & _ & Hfresh & _ & ->)].
    + exists b. split; [exact Hb | apply same_rental_refl].
    + simpl. exists b. split; [|apply same_rental_refl].
      rewrite lookup_insert_ne; [exact Hb|]. intros ->. congruence.
  - destruct (updateBookingStatus_cases bid body db)
      as [-> | (b0 & s & Hk & _ & ->)].
    + exists b. split; [exact Hb | apply same_rental_refl].
    + simpl. apply Hupd, Hk.
  - destruct (cancelBooking_cases u bid reason db) as [-> | (b0 & Hk & _ & ->)].
    + exists b. split; [exact Hb | apply same_rental_refl].
    + simpl. apply Hupd, Hk.
Qed.

(** Alice's rental is still on record, unchanged, after it is cancelled. *)
Lemma bookings_are_never_deleted_witness :
  exists b' : Booking.doc,
    bookings (run (CancelBooking Sample.alice 1 None) Sample.one_approved)
      !! 1%positive = Some b'
    /\ Booking.startDate b' = 1 * Sample.day
    /\ Booking.endDate b' = 3 * Sample.day.
Proof.
  destruct (bookings_are_never_deleted (CancelBooking Sample.alice 1 None)
              Sample.one_approved 1
              (Booking.apply_update
                 (bookingController.status_update Booking.approved None)
                 (bookingController.new_booking Sample.alice
                    (Sample.request 7 (1 * Sample.day) (3 * Sample.day))
                    Sample.car))
              ltac:(vm_compute; reflexivity))
    as (b' & Hb' & _ & _ & Hs & He & _).
  exists b'. split; [exact Hb'|]. split; [exact Hs | exact He].
Defined.

Section BookingData.

Implicit Types (coll : gmap positive Booking.doc) (b : Booking.doc) (db : DB).

(** What a document that passed the schema validators satisfies. *)
Lemma validate_None now b :
  Booking.validate now b = None ->
  now <= Booking.startDate b
  /\ Booking.startDate b < Booking.endDate b
  /\ (0 <= Booking.totalPrice b)%Q.
Proof.
  unfold Booking.validate.
  destruct (Booking.startDate b >=? now) eqn:H1; [|discriminate].
  destruct (Booking.endDate b >? Booking.startDate b) eqn:H2; [|discriminate].
  destruct (Qle_bool 0 (Booking.totalPrice b)) eqn:H3; [|discriminate].
  intros _. apply Z.geb_le in H1. apply Z.gtb_lt in H2.
  apply Qle_bool_iff in H3. repeat split; assumption.
Qed.

Lemma durationDays_positive b :
  Booking.startDate b < Booking.endDate b -> 1 <= BookingVirtual.durationDays b.
Proof. intros H. pose proof (durationDays_bounds b). nia. Qed.

Lemma run_vehicles o db : vehicles (run o db) = vehicles db.
Proof.
  destruct o as [now oid u errors body | bid body | u bid reason]; simpl.
  - destruct (createBooking_cases now oid u errors body db)
      as [-> | (w & _ & _ & _ & ->)]; reflexivity.
  - destruct (updateBookingStatus_cases bid body db)
      as [-> | (b0 & s & _ & _ & ->)]; reflexivity.
  - destruct (cancelBooking_cases u bid reason db)
      as [-> | (b0 & _ & _ & ->)]; reflexivity.
Qed.

Lemma well_priced_update db k b upd :
  well_priced db ->
  bookings db !! k = Some b ->
  well_priced (with_bookings db (<[k := Booking.apply_update upd b]> (bookings db))).
Proof.
  intros Hw Hk i b0 Hi. simpl in Hi |- *.
  destruct (decide (k = i)) as [->|Hne].
  - rewrite lookup_insert_eq in Hi. injection Hi as <-. exact (Hw i b Hk).
  - rewrite lookup_insert_ne in Hi by exact Hne. exact (Hw i b0 Hi).
Qed.

Lemma run_keeps_well_priced o db : well_priced db -> well_priced (run o db).
Proof.
  intros Hw.
  destruct o as [now oid u errors body | bid body | u bid reason]; simpl.
  - destruct (createBooking_cases now oid u errors body db)
      as [-> | (v & Hv & Hfresh & Hval & ->)]; [exact Hw|].
    intros i b Hi. simpl in Hi |- *.
    destruct (decide (oid = i)) as [->|Hne].
    + rewrite lookup_insert_eq in Hi. injection Hi as <-.
      apply validate_None in Hval as (_ & Hse & Hp).
      split; [exact Hse|]. split; [apply durationDays_positive, Hse|].
      split; [exact Hp|]. exists v. split; [exact Hv | reflexivity].
    + rewrite lookup_insert_ne in Hi by exact Hne. exact (Hw i b Hi).
  - destruct (updateBookingStatus_cases bid body db)
      as [-> | (b0 & s & Hk & _ & ->)]; [exact Hw|].
    apply well_priced_update; assumption.
  - destruct (cancelBooking_cases u bid reason db)
      as [-> | (b0 & Hk & _ & ->)]; [exact Hw|].
    apply well_priced_update; assumption.
Qed.

(** The reply of [updateBookingStatus] for an enum value, an existing
    booking and notes within bounds. *)
Lemma updateBookingStatus_ok db bid b s notes :
  bookings db !! bid = Some b ->
  maxlength_opt 500 notes = true ->
  bookingController.updateBookingStatus bid
    {| bookingController.status := Booking.Status_to_string s;
       bookingController.adminNotes := notes |} db
  = (with_bookings db
       (<[bid := Booking.apply_update
                   (bookingController.status_update s notes) b]> (bookings db)),
     json_data 200
       (Some (Booking.apply_update (bookingController.status_update s notes) b))).
Proof.
  intros Hb Hn. unfold bookingController.updateBookingStatus. simpl.
  rewrite Status_of_to_string, Hb. unfold Booking.findByIdAndUpdate.
  rewrite (status_update_valid s notes Hn), Hb. reflexivity.
Qed.

Lemma Status_of_string_None str :
  Booking.Status_of_string str = None
  <-> ~ In str (List.map Booking.Status_to_string Booking.Status_enum).
Proof.
  split.
  - intros Hnone Hin. apply in_map_iff in Hin as (s & <- & _).
    rewrite Status_of_to_string in Hnone. discriminate.
  - intros Hnot. destruct (Booking.Status_of_string str) as [s|] eqn:Hs;
      [|reflexivity].
    apply Status_of_string_enum in Hs. exfalso. apply Hnot. rewrite Hs.
    apply in_map. destruct s; simpl; tauto.
Qed.

End BookingData.

(** X6. In every state the booking handlers can reach from a database
    without bookings, each stored booking has its start before its end,
    lasts at least one day by [durationDays], resolves to a vehicle, and
    carries a price that is not negative and equals [durationDays] times
    the daily price of that vehicle. *)
Theorem reachable_well_priced :
  forall db : DB, reachable db -> well_priced db.
Proof.
  induction 1 as [db Hempty | o db _ IH].
  - intros i b Hi. rewrite Hempty, lookup_empty in Hi. discriminate.
  - apply run_keeps_well_priced, IH.
Qed.

(** Both approved rentals of the sample cost 2 days at 100. *)
Lemma reachable_well_priced_witness : well_priced Sample.both_approved.
Proof.
  apply reachable_well_priced.
  unfold Sample.both_approved, Sample.one_approved, Sample.two_pending.
  do 4 apply reachable_step. apply reachable_init. reflexivity.
Defined.

(** X7. A status change by the admin route can always be taken back: for
    an existing booking and requests without admin notes, setting any
    status and then setting the former status again are both answered
    200 and leave the booking with its former status, admin notes,
    cancellation reason and rental, every other booking as it was, and
    the vehicles and reviews untouched. (Each update also moves the
    [updatedAt] timestamp, which is not among the paths of the
    documents here.) *)
Theorem updateBookingStatus_can_be_undone :
  forall (db : DB) (bid : ObjectId) (b : Booking.doc) (s : Booking.Status),
    bookings db !! bid = Some b ->
    let there := {| bookingController.status := Booking.Status_to_string s;
                    bookingController.adminNotes := None |} in
    let back := {| bookingController.status :=
                     Booking.Status_to_string (Booking.status b);
                   bookingController.adminNotes := None |} in
    let db1 := fst (bookingController.updateBookingStatus bid there db) in
    let db2 := fst (bookingController.updateBookingStatus bid back db1) in
    http_status (snd (bookingController.updateBookingStatus bid there db)) = 200
    /\ http_status (snd (bookingController.updateBookingStatus bid back db1))
       = 200
    /\ (exists b1, bookings db1 !! bid = Some b1 /\ Booking.status b1 = s)
    /\ (exists b2,
          bookings db2 !! bid = Some b2
          /\ Booking.status b2 = Booking.status b
          /\ Booking.adminNotes b2 = Booking.adminNotes b
          /\ Booking.cancellationReason b2 = Booking.cancellationReason b
          /\ same_rental b b2)
    /\ (forall i, i <> bid -> bookings db2 !! i = bookings db !! i)
    /\ vehicles db2 = vehicles db
    /\ reviews db2 = reviews db.
Proof.
  intros db bid b s Hb there back db1 db2. subst db2 db1 there back.
  rewrite (updateBookingStatus_ok db bid b s None Hb eq_refl). simpl fst.
  rewrite (updateBookingStatus_ok _ bid
             (Booking.apply_update (bookingController.status_update s None) b)
             (Booking.status b) None);
    [|simpl; apply lookup_insert_eq | reflexivity].
  simpl. split; [reflexivity|]. split; [reflexivity|].
  split; [eexists; split; [apply lookup_insert_eq | reflexivity]|].
  split.
  - eexists. split; [apply lookup_insert_eq|]. simpl.
    split; [reflexivity|]. split; [reflexivity|]. split; [reflexivity|].
    unfold same_rental. simpl. repeat split.
  - split; [|split; reflexivity].
    intros i Hi. rewrite !lookup_insert_ne by congruence. reflexivity.
Qed.

(** Completing Alice's approved rental and approving it again. *)
Lemma updateBookingStatus_can_be_undone_witness :
  exists b2 : Booking.doc,
    bookings
      (fst (bookingController.updateBookingStatus 1
              (Sample.set_status "approved")
              (fst (bookingController.updateBookingStatus 1
                      (Sample.set_status "completed") Sample.one_approved))))
      !! 1%positive = Some b2
    /\ Booking.status b2 = Booking.approved.
Proof.
  destruct (updateBookingStatus_can_be_undone Sample.one_approved 1
              (Booking.apply_update
                 (bookingController.status_update Booking.approved None)
                 (bookingController.new_booking Sample.alice
                    (Sample.request 7 (1 * Sample.day) (3 * Sample.day))
                    Sample.car))
              Booking.completed ltac:(vm_compute; reflexivity))
    as (_ & _ & _ & (b2 & Hb2 & Hs & _) & _).
  exists b2. split; [exact Hb2 | exact Hs].
Defined.

(** X8. Once the admin route has set a booking to approved or active, a
    validated request for the same vehicle whose dates overlap that
    booking is refused with 400 and stores nothing. *)
Theorem approved_booking_blocks_overlapping_requests :
  forall (db : DB) (bid : ObjectId) (b : Booking.doc) (s : Booking.Status)
         (notes : option string) (v : Vehicle.doc)
         (now : Z) (oid : ObjectId) (u : User)
         (body : bookingController.create_body),
    bookings db !! bid = Some b ->
    s = Booking.approved \/ s = Booking.active ->
    maxlength_opt 500 notes = true ->
    vehicles db !! Booking.vehicleId b = Some v ->
    bookingController.vehicleId body = Booking.vehicleId b ->
    Booking.startDate b < bookingController.endDate body ->
    Booking.endDate b > bookingController.startDate body ->
    let db' :=
      fst (bookingController.updateBookingStatus bid
             {| bookingController.status := Booking.Status_to_string s;
                bookingController.adminNotes := notes |} db) in
    fst (bookingController.createBooking now oid u [] body db') = db'
    /\ http_status (snd (bookingController.createBooking now oid u [] body db'))
       = 400.
Proof.
  intros db bid b s notes v now oid u body Hb Hs Hn Hv Hvid Hlt Hgt db'.
  subst db'. rewrite (updateBookingStatus_ok db bid b s notes Hb Hn). simpl fst.
  set (b' := Booking.apply_update (bookingController.status_update s notes) b).
  assert (Hca : Booking.checkAvailability (<[bid := b']> (bookings db))
                  (bookingController.vehicleId body)
                  (bookingController.startDate body)
                  (bookingController.endDate body) None = false).
  { apply checkAvailability_false. exists bid, b'.
    split; [apply lookup_insert_eq|].
    unfold conflicts, occupies. subst b'. simpl.
    repeat split; auto; discriminate. }
  unfold bookingController.createBooking. simpl vehicles. simpl bookings.
  rewrite Hvid in Hca |- *. rewrite Hv, Hca.
  destruct (Vehicle.availability v); split; reflexivity.
Qed.

(** With Alice approved for days 1 to 3, a request for days 2 to 4 is
    refused. *)
Lemma approved_booking_blocks_overlapping_requests_witness :
  http_status
    (snd (bookingController.createBooking 0 9 Sample.bob []
            (Sample.request 7 (2 * Sample.day) (4 * Sample.day))
            (fst (bookingController.updateBookingStatus 1
                    (Sample.set_status "approved") Sample.two_pending))))
  = 400.
Proof.
  refine (proj2 (approved_booking_blocks_overlapping_requests
                   Sample.two_pending 1 _ Booking.approved None Sample.car
                   0 9 Sample.bob
                   (Sample.request 7 (2 * Sample.day) (4 * Sample.day))
                   _ _ _ _ _ _ _)).
  - vm_compute. reflexivity.
  - left. reflexivity.
  - reflexivity.
  - vm_compute. reflexivity.
  - reflexivity.
  - vm_compute. reflexivity.
  - vm_compute. reflexivity.
Defined.

(** X9. [updateBookingStatus] answers 400 to every status string outside
    the six of the enum, before it looks the booking up, and 404 to an
    enum value for a booking that does not exist; in both cases nothing
    is stored. *)
Theorem updateBookingStatus_rejections :
  forall (bid : ObjectId) (body : bookingController.status_body) (db : DB),
    (~ In (bookingController.status body)
          ["pending"; "approved"; "rejected"; "active"; "completed";
           "cancelled"]%string ->
     bookingController.updateBookingStatus bid body db
     = (db, json_message 400 false "Invalid status"))
    /\ (In (bookingController.status body)
           ["pending"; "approved"; "rejected"; "active"; "completed";
            "cancelled"]%string ->
        bookings db !! bid = None ->
        bookingController.updateBookingStatus bid body db
        = (db, json_message 404 false "Booking not found")).
Proof.
  intros bid body db. unfold bookingController.updateBookingStatus. split.
  - intros Hnot. apply Status_of_string_None in Hnot. rewrite Hnot. reflexivity.
  - intros Hin Hb.
    destruct (Booking.Status_of_string _) as [s|] eqn:Hs.
    + rewrite Hb. reflexivity.
    + apply Status_of_string_None in Hs. exfalso. apply Hs, Hin.
Qed.

Section BookingRoute.

Implicit Types (db : DB) (body : bookingController.create_body).

Lemma createBooking_201_validate now oid u errors body db :
  http_status (snd (bookingController.createBooking now oid u errors body db))
    = 201 ->
  exists v,
    vehicles db !! bookingController.vehicleId body = Some v
    /\ Booking.validate now (bookingController.new_booking u body v) = None.
Proof.
  unfold bookingController.createBooking.
  destruct errors; [|discriminate].
  destruct (vehicles db !! _) as [v|]; [|discriminate].
  destruct (negb (Vehicle.availability v)); [discriminate|].
  destruct (negb (Booking.checkAvailability _ _ _ _ _)); [discriminate|].
  cbv zeta. unfold Booking.create.
  destruct (Booking.validate _ _) eqn:Hval; [discriminate|].
  intros _. exists v. split; [reflexivity | exact Hval].
Qed.

Lemma price_of_days_nonneg (d : Z) (p : Q) :
  1 <= d -> (0 <= inject_Z d * p)%Q -> (0 <= p)%Q.
Proof.
  intros Hd. unfold Qle, Qmult, inject_Z. simpl. intros H. nia.
Qed.

End BookingRoute.

(** X10. The route [POST /api/bookings] answers 201 exactly when the body
    passes the validation chain, the vehicle exists with its
    [availability] flag set and a daily price that is not negative, no
    approved or active booking of the vehicle conflicts with the dates,
    the start date has not passed when the document is saved, and the
    new [_id] is unused. In particular a request validated just before
    its start date and saved just after is refused. Strings are taken
    with one character for each code unit, below 256, where the
    [isLength] of the chain and the [maxlength] of the schema measure
    alike. *)
Theorem post_booking_created_iff :
  forall (now0 now : Z) (oid : ObjectId) (u : User)
         (body : bookingController.create_body) (db : DB),
    http_status (snd (bookingController.post_booking now0 now oid u body db))
      = 201
    <-> bookingController.bookingValidation now0 body = []
        /\ now <= bookingController.startDate body
        /\ bookings db !! oid = None
        /\ Booking.checkAvailability (bookings db)
             (bookingController.vehicleId body)
             (bookingController.startDate body)
             (bookingController.endDate body) None = true
        /\ exists v, vehicles db !! bookingController.vehicleId body = Some v
                     /\ Vehicle.availability v = true
                     /\ (0 <= Vehicle.pricePerDay v)%Q.
Proof.
  intros now0 now oid u body db. unfold bookingController.post_booking. split.
  - intros H.
    destruct (createBooking_201_validate _ _ _ _ _ _ H) as (v' & Hv' & Hval).
    apply createBooking_201 in H as (v & Herr & Hv & Hav & Hca & Hfresh & _).
    rewrite Hv in Hv'. injection Hv' as <-.
    apply validate_None in Hval as (Hnow & Hse & Hp).
    split; [exact Herr|]. split; [exact Hnow|]. split; [exact Hfresh|].
    split; [exact Hca|]. exists v. split; [exact Hv|]. split; [exact Hav|].
    refine (price_of_days_nonneg _ _ _ Hp).
    pose proof (Math_ceil_div_bounds
                  (bookingController.endDate body
                   - bookingController.startDate body)
                  bookingController.msPerDay ltac:(reflexivity)) as Hb.
    simpl in Hse. unfold bookingController.msPerDay in Hb |- *. nia.
  - intros (Hval & Hnow & Hfresh & Hca & v & Hv & Hav & Hp).
    rewrite Hval. unfold bookingController.createBooking.
    rewrite Hv, Hav, Hca. simpl negb. cbv iota zeta. unfold Booking.create.
    rewrite (validate_new_booking now0 now u body v Hval Hnow Hp).
    unfold Booking.pre_save. simpl orb. cbv iota.
    change (Booking.vehicleId (bookingController.new_booking u body v))
      with (bookingController.vehicleId body).
    change (Booking.startDate (bookingController.new_booking u body v))
      with (bookingController.startDate body).
    change (Booking.endDate (bookingController.new_booking u body v))
      with (bookingController.endDate body).
    rewrite (checkAvailability_exclude _ _ _ _ (Some oid) Hca), Hfresh.
    reflexivity.
Qed.

(** X11. [getBooking] and [cancelBooking] apply the same access rule. For
    an existing booking whose user still exists, [getBooking] answers 200
    with the booking exactly to an admin or the owner and 403 to anyone
    else; it answers 403 exactly when [cancelBooking] does, and whoever
    may cancel a booking may read it. When the user of the booking is
    gone, an admin still gets the booking and any other caller gets 500. *)
Theorem getBooking_access :
  forall (users : gset positive) (u : User) (bid : ObjectId) (db : DB)
         (b : Booking.doc),
    bookings db !! bid = Some b ->
    (Booking.userId b ∈ users ->
     (bookingQueries.getBooking users u bid db = json_data 200 (bid, b)
      <-> is_admin u = true \/ Booking.userId b = id u)
     /\ (http_status (bookingQueries.getBooking users u bid db) = 403
         <-> ~ (is_admin u = true \/ Booking.userId b = id u))
     /\ (forall reason,
           http_status (bookingQueries.getBooking users u bid db) = 403
           <-> http_status (snd (bookingController.cancelBooking u bid reason db))
               = 403)
     /\ (forall reason,
           http_status (snd (bookingController.cancelBooking u bid reason db))
             = 200 ->
           bookingQueries.getBooking users u bid db = json_data 200 (bid, b)))
    /\ (Booking.userId b ∉ users ->
        (is_admin u = true ->
         bookingQueries.getBooking users u bid db = json_data 200 (bid, b))
        /\ (is_admin u = false ->
            http_status (bookingQueries.getBooking users u bid db) = 500)).
Proof.
  intros users u bid db b Hb. unfold bookingQueries.getBooking. rewrite Hb.
  split.
  - intros Hin. rewrite (bool_decide_eq_true_2 _ Hin). simpl negb. cbv iota.
    assert (Hcancel : forall reason,
              http_status (snd (bookingController.cancelBooking u bid reason db))
                = 403
              <-> is_admin u = false
                  /\ Pos.eqb (Booking.userId b) (id u) = false).
    { intros reason. unfold bookingController.cancelBooking. rewrite Hb.
      destruct (is_admin u); destruct (Pos.eqb (Booking.userId b) (id u));
        simpl; try (split; [discriminate | intros [? ?]; discriminate]);
        try (split; [reflexivity | tauto]);
        try (split; [intros _; split; reflexivity | reflexivity]);
        destruct (negb (bookingController.cancellable _)); simpl;
        try (split; [discriminate | intros [? ?]; discriminate]);
        destruct (Booking.findByIdAndUpdate _ _ _) as [e|[c r]]; simpl;
        split; try discriminate; intros [? ?]; discriminate. }
    assert (H200 : forall reason,
              http_status (snd (bookingController.cancelBooking u bid reason db))
                = 200 ->
              is_admin u = true \/ Pos.eqb (Booking.userId b) (id u) = true).
    { intros reason H. apply cancelBooking_200 in H as (b0 & Hb0 & Ha & _).
      rewrite Hb in Hb0. injection Hb0 as <-.
      apply orb_true_iff in Ha. exact Ha. }
    destruct (is_admin u) eqn:Ha.
    + split; [split; [auto | reflexivity]|].
      split; [split; [discriminate | intros H; exfalso; apply H; auto]|].
      split; [|reflexivity].
      intros reason. rewrite Hcancel. split; [discriminate | intros [? _]; discriminate].
    + destruct (Pos.eqb (Booking.userId b) (id u)) eqn:Ho; simpl.
      * apply Pos.eqb_eq in Ho.
        split; [split; [auto | reflexivity]|].
        split; [split; [discriminate | intros H; exfalso; apply H; auto]|].
        split; [|reflexivity].
        intros reason. rewrite Hcancel.
        split; [discriminate | intros [_ ?]; discriminate].
      * assert (Hne : Booking.userId b <> id u) by (apply Pos.eqb_neq, Ho).
        split; [split; [discriminate | intros [?|?]; [discriminate|contradiction]]|].
        split; [split; [intros _ [?|?]; [discriminate|contradiction]
                       | reflexivity]|].
        split.
        -- intros reason. rewrite Hcancel. split; auto.
        -- intros reason H. destruct (H200 reason H); discriminate.
  - intros Hout. rewrite (bool_decide_eq_false_2 _ Hout).
    split; intros ->; reflexivity.
Qed.

(** Alice reads her own booking; Bob is turned away. *)
Lemma getBooking_access_witness :
  bookingQueries.getBooking {[ 2%positive; 3%positive ]} Sample.alice 1
    Sample.two_pending
  = json_data 200
      (1%positive,
       bookingController.new_booking Sample.alice
         (Sample.request 7 (1 * Sample.day) (3 * Sample.day)) Sample.car)
  /\ http_status
       (bookingQueries.getBooking {[ 2%positive; 3%positive ]} Sample.bob 1
          Sample.two_pending) = 403.
Proof.
  split.
  - refine (proj2 (proj1 (proj1
      (getBooking_access {[ 2%positive; 3%positive ]} Sample.alice 1
         Sample.two_pending _ _) _)) _).
    + vm_compute. reflexivity.
    + vm_compute. set_solver.
    + right. reflexivity.
  - refine (proj2 (proj1 (proj2 (proj1
      (getBooking_access {[ 2%positive; 3%positive ]} Sample.bob 1
         Sample.two_pending _ _) _))) _).
    + vm_compute. reflexivity.
    + vm_compute. set_solver.
    + intros [H|H]; discriminate.
Defined.

(** * Lists and pagination *)

Section Listings.

Context {A : Type}.
Implicit Types (l : list A) (k n : nat).

(** Cutting a list into [n] consecutive pieces of length [k] and gluing
    them back gives the list, when the pieces reach its end. *)
Lemma chunks_concat k n l :
  (length l <= n * k)%nat ->
  concat (List.map (fun i => firstn k (skipn (i * k) l)) (seq 0 n)) = l.
Proof.
  revert l. induction n as [|n IH]; intros l Hlen.
  - simpl in *. destruct l; [reflexivity | simpl in Hlen; lia].
  - cbn [seq List.map concat]. rewrite <- seq_shift, List.map_map.
    change (0 * k)%nat with 0%nat. cbn [skipn].
    transitivity (firstn k l ++ skipn k l); [|apply firstn_skipn]. f_equal.
    etransitivity; [|apply (IH (skipn k l))].
    + f_equal. apply List.map_ext. intros i.
      rewrite skipn_skipn. f_equal. f_equal. lia.
    + rewrite length_skipn. simpl in Hlen. lia.
Qed.

Lemma skip_limit_firstn (p : nat) (limit : positive) l :
  Query.skip_limit (Pos.of_nat (S p)) limit l
  = firstn (Pos.to_nat limit) (skipn (p * Pos.to_nat limit) l).
Proof.
  unfold Query.skip_limit. rewrite Nat2Pos.id by discriminate.
  replace (S p - 1)%nat with p by lia. reflexivity.
Qed.

Lemma skip_limit_length (page limit : positive) l :
  Z.of_nat (length (Query.skip_limit page limit l))
  = Z.max 0 (Z.min (Z.pos limit)
               (Z.of_nat (length l) - (Z.pos page - 1) * Z.pos limit)).
Proof.
  unfold Query.skip_limit. rewrite length_firstn, length_skipn.
  pose proof (Pos2Nat.is_pos page). pose proof (Pos2Nat.is_pos limit).
  rewrite <- !positive_nat_Z. nia.
Qed.

Lemma skip_limit_In (page limit : positive) l x :
  In x (Query.skip_limit page limit l) -> In x l.
Proof.
  unfold Query.skip_limit. intros H.
  set (m := ((Pos.to_nat page - 1) * Pos.to_nat limit)%nat) in *.
  rewrite <- (firstn_skipn m l). apply in_or_app. right.
  rewrite <- (firstn_skipn (Pos.to_nat limit) (skipn m l)).
  apply in_or_app. left. exact H.
Qed.

(** The number of pages of the reply is enough to reach the end. *)
Lemma pages_reach_end (limit : positive) (m : nat) :
  (m <= Z.to_nat (Math_ceil_div (Z.of_nat m) (Z.pos limit))
        * Pos.to_nat limit)%nat.
Proof.
  pose proof (Math_ceil_div_bounds (Z.of_nat m) (Z.pos limit) ltac:(lia)) as Hb.
  pose proof (Pos2Nat.is_pos limit).
  assert (0 <= Math_ceil_div (Z.of_nat m) (Z.pos limit)) by nia.
  apply Nat2Z.inj_le. rewrite Nat2Z.inj_mul, Z2Nat.id, positive_nat_Z by lia.
  lia.
Qed.

End Listings.

Section ListingOfCollection.

Context {A : Type}.
Implicit Types (coll : gmap positive A) (filter : ObjectId -> A -> bool).

Lemma find_In filter coll k d :
  In (k, d) (Query.find filter coll) <-> coll !! k = Some d /\ filter k d = true.
Proof.
  unfold Query.find. rewrite filter_In, <- list_elem_of_In, elem_of_map_to_list.
  reflexivity.
Qed.

(** All the pages of a listing, from the first to the last the reply
    announces, one after the other, are the ordered matches. *)
Lemma listing_pages_cover filter sort (page limit : positive) coll :
  (forall l : list (ObjectId * A), Permutation (sort l) l) ->
  concat
    (List.map
       (fun p => Query.data (Query.listing filter sort (Pos.of_nat p) limit coll))
       (seq 1 (Z.to_nat
                 (Query.pages
                    (Query.pagination
                       (Query.listing filter sort page limit coll))))))
  = sort (Query.find filter coll).
Proof.
  intros Hperm. simpl.
  rewrite <- seq_shift, List.map_map.
  erewrite List.map_ext; [|intros p; apply skip_limit_firstn].
  apply chunks_concat.
  rewrite (Permutation_length (Hperm (Query.find filter coll))).
  apply pages_reach_end.
Qed.

End ListingOfCollection.

(** X12. [getBookings] never shows a caller who is not an admin the
    bookings of someone else, whatever [userId] the query asks for: every
    listed booking is stored, belongs to the caller unless the caller is
    an admin, and satisfies the vehicle and user filters of the query. *)
Theorem getBookings_lists_own_bookings :
  forall (sort : list (ObjectId * Booking.doc) -> list (ObjectId * Booking.doc))
         (u : User) (q : bookingQueries.list_query) (db : DB)
         (k : ObjectId) (b : Booking.doc),
    (forall l, Permutation (sort l) l) ->
    In (k, b) (listed (bookingQueries.getBookings sort u q db)) ->
    bookings db !! k = Some b
    /\ (is_admin u = false -> Booking.userId b = id u)
    /\ (forall x, is_admin u = true -> bookingQueries.userId q = Some x ->
                  Booking.userId b = x)
    /\ (forall v, bookingQueries.vehicleId q = Some v ->
                  Booking.vehicleId b = v).
Proof.
  intros sort u q db k b Hperm Hin. simpl in Hin.
  apply skip_limit_In in Hin.
  apply (Permutation_in _ (Hperm _)) in Hin.
  apply find_In in Hin as [Hk Hm]. split; [exact Hk|].
  unfold bookingQueries.matches, bookingQueries.build_filter in Hm. simpl in Hm.
  apply andb_true_iff in Hm as [Hm _]. apply andb_true_iff in Hm as [Hu Hv].
  split; [|split].
  - intros Ha. rewrite Ha in Hu. simpl in Hu. apply Pos.eqb_eq, Hu.
  - intros x Ha Hx. rewrite Ha, Hx in Hu. simpl in Hu. apply Pos.eqb_eq, Hu.
  - intros v Hq. rewrite Hq in Hv. apply Pos.eqb_eq, Hv.
Qed.

(** Bob asks for Alice's bookings and is shown his own. *)
Lemma getBookings_lists_own_bookings_witness :
  bookings Sample.two_pending !! 2%positive
  = Some (bookingController.new_booking Sample.bob
            (Sample.request 7 (2 * Sample.day) (4 * Sample.day)) Sample.car)
  /\ Booking.userId
       (bookingController.new_booking Sample.bob
          (Sample.request 7 (2 * Sample.day) (4 * Sample.day)) Sample.car)
     = id Sample.bob.
Proof.
  destruct (getBookings_lists_own_bookings (fun l => l) Sample.bob
              {| bookingQueries.page := 1; bookingQueries.limit := 10;
                 bookingQueries.status := None;
                 bookingQueries.userId := Some (id Sample.alice);
                 bookingQueries.vehicleId := None |}
              Sample.two_pending 2
              (bookingController.new_booking Sample.bob
                 (Sample.request 7 (2 * Sample.day) (4 * Sample.day)) Sample.car)
              (fun l => Permutation_refl l)
              ltac:(vm_compute; left; reflexivity))
    as (Hk & Hown & _).
  split; [exact Hk | exact (Hown eq_refl)].
Defined.

(** X13. The pages of [getBookings] cover the matches, each once: the
    reply counts in [total] the stored bookings that match the filter,
    and pages 1 to [pagination.pages], one after the other, are exactly
    those bookings in the order of the sort. *)
Theorem getBookings_pages_cover :
  forall (sort : list (ObjectId * Booking.doc) -> list (ObjectId * Booking.doc))
         (u : User) (q : bookingQueries.list_query) (db : DB),
    (forall l, Permutation (sort l) l) ->
    let all :=
      Query.find (bookingQueries.matches (bookingQueries.build_filter u q))
        (bookings db) in
    exists L,
      bookingQueries.getBookings sort u q db = json_data 200 L
      /\ Query.total L = Z.of_nat (length all)
      /\ (forall k b, In (k, b) all
                      <-> bookings db !! k = Some b
                          /\ bookingQueries.matches
                               (bookingQueries.build_filter u q) k b = true)
      /\ concat
           (List.map
              (fun p => listed (bookingQueries.getBookings sort u
                                  (bookingQueries.at_page q (Pos.of_nat p)) db))
              (seq 1 (Z.to_nat (Query.pages (Query.pagination L)))))
         = sort all.
Proof.
  intros sort u q db Hperm all. eexists. split; [reflexivity|].
  split; [reflexivity|]. split; [intros k b; apply find_In|].
  apply (listing_pages_cover
           (bookingQueries.matches (bookingQueries.build_filter u q))
           sort (bookingQueries.page q) (bookingQueries.limit q) (bookings db)
           Hperm).
Qed.

(** With one booking to a page, the two pages of the sample list both
    bookings. *)
Lemma getBookings_pages_cover_witness :
  exists L,
    bookingQueries.getBookings (fun l => l) Sample.bob
      {| bookingQueries.page := 1; bookingQueries.limit := 1;
         bookingQueries.status := None; bookingQueries.userId := None;
         bookingQueries.vehicleId := None |} Sample.both_approved
    = json_data 200 L
    /\ Query.total L = 1.
Proof.
  destruct (getBookings_pages_cover (fun l => l) Sample.bob
              {| bookingQueries.page := 1; bookingQueries.limit := 1;
                 bookingQueries.status := None; bookingQueries.userId := None;
                 bookingQueries.vehicleId := None |} Sample.both_approved
              (fun l => Permutation_refl l))
    as (L & HL & Ht & _).
  exists L. split; [exact HL|]. rewrite Ht. vm_compute. reflexivity.
Defined.

(** X14. The envelope of a [getBookings] reply tells the truth about the
    pages: [count] is the size of the page and never exceeds [limit];
    [pages] is the least number of pages that hold [total] bookings;
    [hasNext] is set exactly when the next page is not empty; [hasPrev]
    exactly when the page is not the first. *)
Theorem getBookings_envelope :
  forall (sort : list (ObjectId * Booking.doc) -> list (ObjectId * Booking.doc))
         (u : User) (q : bookingQueries.list_query) (db : DB)
         (L : Query.Listing (ObjectId * Booking.doc)),
    (forall l, Permutation (sort l) l) ->
    bookingQueries.getBookings sort u q db = json_data 200 L ->
    let p := Z.pos (bookingQueries.page q) in
    let k := Z.pos (bookingQueries.limit q) in
    Query.count L = Z.of_nat (length (Query.data L))
    /\ Query.count L = Z.max 0 (Z.min k (Query.total L - (p - 1) * k))
    /\ Query.count L <= k
    /\ (Query.pages (Query.pagination L) - 1) * k
         < Query.total L <= Query.pages (Query.pagination L) * k
    /\ (Query.hasNext (Query.pagination L) = true
        <-> listed (bookingQueries.getBookings sort u
                      (bookingQueries.at_page q
                         (Pos.succ (bookingQueries.page q))) db) <> [])
    /\ (Query.hasNext (Query.pagination L) = true <-> p * k < Query.total L)
    /\ (Query.hasPrev (Query.pagination L) = true
        <-> bookingQueries.page q <> 1%positive).
Proof.
  intros sort u q db L Hperm HL p k. injection HL as <-. simpl.
  set (all := Query.find _ (bookings db)).
  pose proof (Permutation_length (Hperm all)) as Hlen.
  pose proof (skip_limit_length (bookingQueries.page q) (bookingQueries.limit q)
                (sort all)) as Hc.
  pose proof (skip_limit_length (Pos.succ (bookingQueries.page q))
                (bookingQueries.limit q) (sort all)) as Hn.
  rewrite Hlen in Hc, Hn. rewrite Pos2Z.inj_succ in Hn.
  pose proof (Math_ceil_div_bounds (Z.of_nat (length all)) k ltac:(subst k; lia))
    as Hb.
  fold p k in Hc, Hn |- *.
  assert (Hnext : (p <? Math_ceil_div (Z.of_nat (length all)) k) = true
                  <-> p * k < Z.of_nat (length all)).
  { rewrite Z.ltb_lt. subst p k. nia. }
  split; [reflexivity|]. split; [exact Hc|]. split; [subst k; lia|].
  split; [exact Hb|]. split; [|split; [exact Hnext|]].
  - rewrite Hnext.
    match goal with
    | |- _ <-> ?t <> [] =>
        change t with (Query.skip_limit (Pos.succ (bookingQueries.page q))
                         (bookingQueries.limit q) (sort all))
    end.
    destruct (Query.skip_limit (Pos.succ (bookingQueries.page q))
                (bookingQueries.limit q) (sort all)) as [|x xs];
      simpl length in Hn.
    + split; [intros H; exfalso; subst p k; lia | intros H; congruence].
    + split; [discriminate | intros _; subst p k; lia].
  - rewrite Z.gtb_gt. subst p. split; intros H; [intros Heq; rewrite Heq in H|]; lia.
Qed.

(** The first of the two one-booking pages has a next page and no
    previous one. *)
Lemma getBookings_envelope_witness :
  exists L,
    bookingQueries.getBookings (fun l => l) Sample.root_admin
      {| bookingQueries.page := 1; bookingQueries.limit := 1;
         bookingQueries.status := None; bookingQueries.userId := None;
         bookingQueries.vehicleId := None |} Sample.both_approved
    = json_data 200 L
    /\ Query.count L = 1
    /\ Query.hasNext (Query.pagination L) = true.
Proof.
  eexists. split; [reflexivity|].
  destruct (getBookings_envelope (fun l => l) Sample.root_admin
              {| bookingQueries.page := 1; bookingQueries.limit := 1;
                 bookingQueries.status := None; bookingQueries.userId := None;
                 bookingQueries.vehicleId := None |} Sample.both_approved _
              (fun l => Permutation_refl l) eq_refl)
    as (_ & Hc & _ & _ & _ & Hnext & _).
  split; [rewrite Hc; vm_compute; reflexivity|].
  apply Hnext. vm_compute. reflexivity.
Defined.


(** * Booking statistics *)

Section Stats.

Implicit Types (coll : gmap positive Booking.doc).

(** Each booking has exactly one of the six statuses. *)
Lemma status_partition (l : list (ObjectId * Booking.doc)) :
  fold_right Z.add 0
    (List.map
       (fun s => Z.of_nat
                   (length (List.filter
                              (fun kb => Booking.Status_eqb
                                           (Booking.status (snd kb)) s) l)))
       Booking.Status_enum)
  = Z.of_nat (length l).
Proof.
  induction l as [|[k b] l IH]; [reflexivity|].
  cbn [Booking.Status_enum List.map fold_right] in IH |- *.
  cbn [List.filter snd]. destruct (Booking.status b);
    cbn [Booking.Status_eqb length]; rewrite ?Nat2Z.inj_succ; lia.
Qed.

Lemma group_counts coll (ss : list Booking.Status) :
  fold_right Z.add 0
    (List.map bookingQueries.group_count
       (List.flat_map
          (fun s =>
             match bookingQueries.with_status s coll with
             | [] => []
             | l => [ {| bookingQueries.group_id := s;
                         bookingQueries.group_count := Z.of_nat (length l);
                         bookingQueries.group_revenue :=
                           bookingQueries.sumQ
                             (List.map (fun kb => Booking.totalPrice (snd kb)) l) |} ]
             end) ss))
  = fold_right Z.add 0
      (List.map (fun s => Z.of_nat (length (bookingQueries.with_status s coll)))
         ss).
Proof.
  induction ss as [|s ss IH]; [reflexivity|].
  cbn [List.flat_map]. rewrite List.map_app, fold_right_app.
  cbn [List.map fold_right]. rewrite <- IH.
  destruct (bookingQueries.with_status s coll); reflexivity.
Qed.

Lemma with_status_In s coll k b :
  In (k, b) (bookingQueries.with_status s coll)
  <-> coll !! k = Some b /\ Booking.status b = s.
Proof.
  unfold bookingQueries.with_status.
  rewrite filter_In, <- list_elem_of_In, elem_of_map_to_list. simpl.
  rewrite Status_eqb_eq. reflexivity.
Qed.

Lemma group_by_status_In coll g :
  In g (bookingQueries.group_by_status coll)
  -> 1 <= bookingQueries.group_count g
     /\ bookingQueries.group_count g
        = Z.of_nat (length (bookingQueries.with_status
                              (bookingQueries.group_id g) coll))
     /\ bookingQueries.group_revenue g
        = bookingQueries.sumQ
            (List.map (fun kb => Booking.totalPrice (snd kb))
               (bookingQueries.with_status (bookingQueries.group_id g) coll)).
Proof.
  unfold bookingQueries.group_by_status. rewrite in_flat_map.
  intros (s & _ & Hin).
  destruct (bookingQueries.with_status s coll) as [|x l] eqn:Hs; [destruct Hin|].
  destruct Hin as [<-|[]]. simpl bookingQueries.group_id.
  rewrite Hs. simpl. split; [lia|split; reflexivity].
Qed.

End Stats.

(** X15. In the reply of [getBookingStats] the counts of the status
    groups add up to [totalBookings], which is the number of stored
    bookings; every group stands for at least one stored booking of its
    status and counts exactly those; every stored booking falls in a
    group; and [totalRevenue] is the revenue of the completed group, or
    0 when no booking is completed. *)
Theorem getBookingStats_adds_up :
  forall db : DB,
    exists st,
      bookingQueries.getBookingStats db = json_data 200 st
      /\ bookingQueries.totalBookings st = Z.of_nat (size (bookings db))
      /\ fold_right Z.add 0
           (List.map bookingQueries.group_count
              (bookingQueries.statusBreakdown st))
         = bookingQueries.totalBookings st
      /\ (forall g, In g (bookingQueries.statusBreakdown st) ->
            1 <= bookingQueries.group_count g
            /\ bookingQueries.group_count g
               = Z.of_nat (length (bookingQueries.with_status
                                     (bookingQueries.group_id g) (bookings db)))
            /\ (bookingQueries.group_id g = Booking.completed ->
                (bookingQueries.totalRevenue st
                 == bookingQueries.group_revenue g)%Q))
      /\ (forall k b, bookings db !! k = Some b ->
            exists g, In g (bookingQueries.statusBreakdown st)
                      /\ bookingQueries.group_id g = Booking.status b)
      /\ ((forall k b, bookings db !! k = Some b ->
             Booking.status b <> Booking.completed) ->
          bookingQueries.totalRevenue st = (0 # 1)%Q).
Proof.
  intros db. eexists. split; [reflexivity|]. simpl.
  split; [|split; [|split; [|split]]].
  - rewrite length_map_to_list. reflexivity.
  - unfold bookingQueries.group_by_status. rewrite group_counts.
    apply status_partition.
  - intros g Hg. apply group_by_status_In in Hg as (H1 & H2 & H3).
    split; [exact H1|]. split; [exact H2|]. intros Hc.
    rewrite H3, Hc.
    destruct (bookingQueries.with_status Booking.completed (bookings db))
      as [|x l]; [reflexivity|].
    destruct (Qeq_bool _ _) eqn:Hz; [|reflexivity].
    apply Qeq_bool_iff in Hz. symmetry. exact Hz.
  - intros k b Hb. unfold bookingQueries.group_by_status.
    assert (Hin : In (k, b) (bookingQueries.with_status (Booking.status b)
                               (bookings db)))
      by (apply with_status_In; auto).
    destruct (bookingQueries.with_status (Booking.status b) (bookings db))
      as [|x l] eqn:Hs; [destruct Hin|].
    eexists. split.
    + apply in_flat_map. exists (Booking.status b).
      split; [destruct (Booking.status b); simpl; tauto|].
      rewrite Hs. left. reflexivity.
    + reflexivity.
  - intros Hnone.
    destruct (bookingQueries.with_status Booking.completed (bookings db))
      as [|[k b] l] eqn:Hs; [reflexivity|].
    assert (Hin : In (k, b)
                    (bookingQueries.with_status Booking.completed (bookings db)))
      by (rewrite Hs; left; reflexivity).
    apply with_status_In in Hin as [Hk Hc].
    exfalso. exact (Hnone k b Hk Hc).
Qed.

(** * Further properties of the review handlers *)

Section ReviewSteps.

Implicit Types (coll : gmap positive Review.doc) (r : Review.doc) (db : DB).

Lemma Review_findOne_None query coll :
  Review.findOne query coll = None
  <-> forall i r, coll !! i = Some r -> query i r = false.
Proof.
  unfold Review.findOne. split.
  - intros Hnone i r Hir.
    apply (find_none _ _ Hnone (i, r)).
    apply list_elem_of_In, elem_of_map_to_list, Hir.
  - intros Hall.
    destruct (find _ _) as [[i r]|] eqn:Hfind; [|reflexivity].
    apply find_some in Hfind as [Hin Hq]. simpl in Hq.
    apply list_elem_of_In, elem_of_map_to_list in Hin.
    rewrite (Hall _ _ Hin) in Hq. discriminate.
Qed.

Lemma by_user_booking_false user booking i r :
  Review.by_user_booking user booking i r = false
  <-> ~ (Review.userId r = user /\ Review.bookingId r = booking).
Proof.
  unfold Review.by_user_booking.
  rewrite andb_false_iff, !Pos.eqb_neq. split; [tauto|].
  intros H. destruct (decide (Review.userId r = user)); [right|left]; tauto.
Qed.

Lemma validate_rating_None n :
  Review.validate_rating n = None <-> 1 <= n <= 5.
Proof.
  unfold Review.validate_rating.
  destruct (Z.leb 1 n) eqn:H1; destruct (Z.leb n 5) eqn:H2; simpl;
    rewrite ?Z.leb_le, ?Z.leb_gt in *; split; intros; try discriminate;
    try reflexivity; lia.
Qed.

(** The two shapes of the database after each review handler. *)
Lemma createReview_cases oid u errors body db :
  fst (reviewController.createReview oid u errors body db) = db
  \/ exists r,
       r = Review.cast
             {| Review.userId := id u;
                Review.vehicleId := reviewController.vehicleId body;
                Review.bookingId := reviewController.bookingId body;
                Review.rating := reviewController.rating body;
                Review.comment := reviewController.comment body |}
       /\ reviews db !! oid = None
       /\ Review.findOne
            (Review.by_user_booking (id u) (reviewController.bookingId body))
            (reviews db) = None
       /\ 1 <= Review.rating r <= 5
       /\ fst (reviewController.createReview oid u errors body db)
          = with_reviews db (<[oid := r]> (reviews db))
              (Review.calcAverageRating (<[oid := r]> (reviews db))
                 (reviewController.vehicleId body) (vehicles db)).
Proof.
  unfold reviewController.createReview.
  destruct errors; [|left; reflexivity].
  destruct (Review.completed_booking _ _ _ _); [|left; reflexivity].
  destruct (Review.findOne _ _) eqn:Hdup; [left; reflexivity|].
  unfold Review.create, Review.save, Review.validate. simpl Review.rating.
  destruct (Review.validate_rating _) eqn:Hr; [left; reflexivity|].
  destruct (negb _); [left; reflexivity|].
  destruct (Review.pre_save _ _ _); [left; reflexivity|].
  destruct (reviews db !! oid) eqn:Hfresh; [left; reflexivity|].
  simpl Review.userId. simpl Review.bookingId. rewrite Hdup.
  right. eexists. split; [reflexivity|]. apply validate_rating_None in Hr.
  repeat split; auto; apply Hr.
Qed.

Lemma updateReview_cases u errors rid new_rating new_comment db :
  fst (reviewController.updateReview u errors rid new_rating new_comment db) = db
  \/ exists r,
       reviews db !! rid = Some r
       /\ Review.userId r = id u
       /\ (forall n, new_rating = Some n -> 1 <= n <= 5)
       /\ fst (reviewController.updateReview u errors rid
                 new_rating new_comment db)
          = with_reviews db
              (<[rid := Review.apply_update new_rating
                          (option_map trim new_comment) r]>
                 (reviews db))
              (vehicles db).
Proof.
  unfold reviewController.updateReview.
  destruct errors; [|left; reflexivity].
  destruct (reviews db !! rid) as [r|] eqn:Hr; [|left; reflexivity].
  destruct (Pos.eqb (Review.userId r) (id u)) eqn:Hu; [|left; reflexivity].
  simpl negb. cbv iota. unfold Review.findByIdAndUpdate. cbv zeta.
  destruct (from_option Review.validate_rating None new_rating) eqn:Hv;
    [left; reflexivity|].
  destruct (negb _); [left; reflexivity|].
  right. exists r. split; [reflexivity|]. split; [apply Pos.eqb_eq, Hu|].
  split.
  - intros n ->. simpl in Hv. apply validate_rating_None, Hv.
  - simpl. f_equal. apply map_eq. intros i.
    destruct (decide (rid = i)) as [->|Hne].
    + rewrite lookup_alter_eq, lookup_insert_eq, Hr. reflexivity.
    + rewrite lookup_alter_ne, lookup_insert_ne by exact Hne. reflexivity.
Qed.

Lemma deleteReview_cases u rid db :
  fst (reviewController.deleteReview u rid db) = db
  \/ exists r,
       reviews db !! rid = Some r
       /\ (Review.userId r = id u \/ is_admin u = true)
       /\ reviewController.deleteReview u rid db
          = (with_reviews db (delete rid (reviews db)) (vehicles db),
             json_message 200 true "Review deleted successfully").
Proof.
  unfold reviewController.deleteReview.
  destruct (reviews db !! rid) as [r|] eqn:Hr; [|left; reflexivity].
  destruct (Pos.eqb (Review.userId r) (id u)) eqn:Hu;
    destruct (is_admin u) eqn:Ha; simpl; try (left; reflexivity);
    right; exists r; repeat split; auto; left; apply Pos.eqb_eq, Hu.
Qed.

Lemma run_review_keeps_one_review_per_booking o db :
  one_review_per_booking (reviews db) ->
  one_review_per_booking (reviews (run_review o db)).
Proof.
  intros Hinv.
  destruct o as [oid u errors body | u errors rid nr nc | u rid]; simpl.
  - destruct (createReview_cases oid u errors body db)
      as [-> | (r & Hr & Hfresh & Hdup & _ & ->)]; [exact Hinv|].
    simpl. intros i j r1 r2 Hij H1 H2 [Hu Hb].
    pose proof (proj1 (Review_findOne_None _ _) Hdup) as Hnone.
    destruct (decide (i = oid)) as [->|Hi];
      destruct (decide (j = oid)) as [->|Hj]; [congruence| | |].
    + rewrite lookup_insert_eq in H1. injection H1 as <-.
      rewrite lookup_insert_ne in H2 by congruence.
      apply (proj1 (by_user_booking_false _ _ j r2) (Hnone j r2 H2)).
      subst r. simpl in Hu, Hb. split; congruence.
    + rewrite lookup_insert_eq in H2. injection H2 as <-.
      rewrite lookup_insert_ne in H1 by congruence.
      apply (proj1 (by_user_booking_false _ _ i r1) (Hnone i r1 H1)).
      subst r. simpl in Hu, Hb. split; congruence.
    + rewrite lookup_insert_ne in H1, H2 by congruence.
      exact (Hinv i j r1 r2 Hij H1 H2 (conj Hu Hb)).
  - destruct (updateReview_cases u errors rid nr nc db)
      as [-> | (r & Hr & _ & _ & ->)]; [exact Hinv|].
    simpl. intros i j r1 r2 Hij H1 H2 [Hu Hb].
    destruct (decide (i = rid)) as [->|Hi];
      destruct (decide (j = rid)) as [->|Hj]; [congruence| | |].
    + rewrite lookup_insert_eq in H1. injection H1 as <-.
      rewrite lookup_insert_ne in H2 by congruence.
      exact (Hinv rid j r r2 Hij Hr H2 (conj Hu Hb)).
    + rewrite lookup_insert_eq in H2. injection H2 as <-.
      rewrite lookup_insert_ne in H1 by congruence.
      exact (Hinv i rid r1 r Hij H1 Hr (conj Hu Hb)).
    + rewrite lookup_insert_ne in H1, H2 by congruence.
      exact (Hinv i j r1 r2 Hij H1 H2 (conj Hu Hb)).
  - destruct (deleteReview_cases u rid db) as [-> | (r & _ & _ & ->)];
      [exact Hinv|].
    simpl. unfold Review.findByIdAndDelete. intros i j r1 r2 Hij H1 H2.
    apply lookup_delete_Some in H1 as [_ H1].
    apply lookup_delete_Some in H2 as [_ H2].
    exact (Hinv i j r1 r2 Hij H1 H2).
Qed.

Lemma run_review_keeps_ratings_in_range o db :
  ratings_in_range (reviews db) -> ratings_in_range (reviews (run_review o db)).
Proof.
  intros Hinv.
  destruct o as [oid u errors body | u errors rid nr nc | u rid]; simpl.
  - destruct (createReview_cases oid u errors body db)
      as [-> | (r & _ & _ & _ & Hrange & ->)]; [exact Hinv|].
    simpl. intros i r0 Hi. destruct (decide (oid = i)) as [->|Hne].
    + rewrite lookup_insert_eq in Hi. injection Hi as <-. exact Hrange.
    + rewrite lookup_insert_ne in Hi by exact Hne. exact (Hinv i r0 Hi).
  - destruct (updateReview_cases u errors rid nr nc db)
      as [-> | (r & Hr & _ & Hnew & ->)]; [exact Hinv|].
    simpl. intros i r0 Hi. destruct (decide (rid = i)) as [->|Hne].
    + rewrite lookup_insert_eq in Hi. injection Hi as <-. simpl.
      destruct nr as [n|]; simpl; [apply Hnew; reflexivity | exact (Hinv i r Hr)].
    + rewrite lookup_insert_ne in Hi by exact Hne. exact (Hinv i r0 Hi).
  - destruct (deleteReview_cases u rid db) as [-> | (r & _ & _ & ->)];
      [exact Hinv|].
    simpl. unfold Review.findByIdAndDelete. intros i r0 Hi.
    apply lookup_delete_Some in Hi as [_ Hi]. exact (Hinv i r0 Hi).
Qed.

End ReviewSteps.

(** X16. The review handlers keep at most one review for each pair of
    user and booking: if no two stored reviews share their user and
    booking, none do after [createReview], [updateReview] or
    [deleteReview], whatever the arguments and the outcome. *)
Theorem one_review_per_booking_preserved :
  forall (o : review_op) (db : DB),
    one_review_per_booking (reviews db) ->
    one_review_per_booking (reviews (run_review o db)).
Proof. intros o db. apply run_review_keeps_one_review_per_booking. Qed.

(** Bob's review joins Alice's: still one review for each booking. *)
Lemma one_review_per_booking_preserved_witness :
  one_review_per_booking
    (reviews (run_review (CreateReview 12 Sample.bob [] (Sample.review 7 2 4))
                (run_review
                   (CreateReview 11 Sample.alice [] (Sample.review 7 1 5))
                   Sample.three_completed))).
Proof.
  do 2 apply one_review_per_booking_preserved.
  intros i j r1 r2 _ H. vm_compute in H. discriminate.
Defined.

(** X17. Every stored rating stays one of 1 to 5: if all stored ratings
    are in that range, they are after [createReview], [updateReview] or
    [deleteReview], whatever the arguments: a rating out of range never
    reaches the collection. *)
Theorem ratings_in_range_preserved :
  forall (o : review_op) (db : DB),
    ratings_in_range (reviews db) ->
    ratings_in_range (reviews (run_review o db)).
Proof. intros o db. apply run_review_keeps_ratings_in_range. Qed.

(** A 9-star edit is turned away and the 3 stars stay. *)
Lemma ratings_in_range_preserved_witness :
  ratings_in_range
    (reviews (run_review (UpdateReview Sample.alice [] 13 (Some 9) None)
                (run_review
                   (CreateReview 13 Sample.alice [] (Sample.review 7 3 3))
                   Sample.three_completed))).
Proof.
  do 2 apply ratings_in_range_preserved.
  intros i r H. vm_compute in H. discriminate.
Defined.

Section Rollup.

Implicit Types (coll : gmap positive Review.doc) (rs : list Z) (db : DB).

Lemma sum_range rs :
  Forall (fun r => 1 <= r <= 5) rs ->
  Z.of_nat (length rs) <= Review.sum rs <= 5 * Z.of_nat (length rs).
Proof.
  induction 1 as [|r rs Hr _ IH]; [simpl; lia|].
  unfold Review.sum in *. cbn [fold_right length]. rewrite Nat2Z.inj_succ. lia.
Qed.

(** The stored average of ratings between 1 and 5 is between 1 and 5. *)
Lemma rounded_average_range rs :
  rs <> [] ->
  Forall (fun r => 1 <= r <= 5) rs ->
  (1 <= Review.rounded_average rs <= 5)%Q.
Proof.
  intros Hne Hall. pose proof (sum_range rs Hall) as Hs.
  assert (Hn : 0 < Z.of_nat (length rs)) by (destruct rs; [congruence|simpl; lia]).
  unfold Review.rounded_average.
  set (n := Z.of_nat (length rs)) in *. set (s := Review.sum rs) in *.
  clearbody n s.
  set (mean := (inject_Z s / inject_Z n)%Q).
  assert (Hn' : (0 < inject_Z n)%Q) by (unfold Qlt, inject_Z; simpl; lia).
  assert (Hlo : (1 <= mean)%Q).
  { apply Qle_shift_div_l; [exact Hn'|].
    unfold Qle, Qmult, inject_Z. simpl. lia. }
  assert (Hhi : (mean <= 5)%Q).
  { apply Qle_shift_div_r; [exact Hn'|].
    unfold Qle, Qmult, inject_Z. simpl. lia. }
  pose proof (Math_round_bounds (mean * inject_Z 10)) as Hb.
  set (k := Math_round (mean * inject_Z 10)) in *.
  change (inject_Z 10) with (10 # 1)%Q in *.
  assert (Hk : 10 <= k <= 50).
  { assert (H1 : (19 # 2 < inject_Z k)%Q) by lra.
    assert (H2 : (inject_Z k <= 101 # 2)%Q) by lra.
    unfold Qlt, Qle, inject_Z in H1, H2. simpl in H1, H2. lia. }
  assert (H10 : (10 # 1 <= inject_Z k)%Q)
    by (unfold Qle, inject_Z; simpl; lia).
  assert (H50 : (inject_Z k <= 50 # 1)%Q)
    by (unfold Qle, inject_Z; simpl; lia).
  unfold Qdiv. change (/ (10 # 1))%Q with (1 # 10)%Q. split; lra.
Qed.

Lemma ratings_of_range coll v :
  ratings_in_range coll ->
  Forall (fun r => 1 <= r <= 5) (Review.ratings_of coll v).
Proof.
  intros Hinv. unfold Review.ratings_of. apply List.Forall_forall. intros x Hx.
  apply in_map_iff in Hx as ([k r] & <- & Hin).
  apply filter_In in Hin as [Hin _].
  apply list_elem_of_In, elem_of_map_to_list in Hin. exact (Hinv k r Hin).
Qed.

End Rollup.

(** X18. The rollup stays within the bounds of the vehicle schema
    although it is written without validators: when the stored ratings
    are all between 1 and 5, a successful [createReview] leaves the
    reviewed vehicle with an [averageRating] between 1 and 5 and a
    [totalReviews] of at least 1. *)
Theorem createReview_rollup_within_bounds :
  forall (oid : ObjectId) (u : User) (errors : list string)
         (body : reviewController.create_body) (db : DB) (v : Vehicle.doc),
    ratings_in_range (reviews db) ->
    http_status (snd (reviewController.createReview oid u errors body db)) = 201 ->
    vehicles (fst (reviewController.createReview oid u errors body db))
      !! reviewController.vehicleId body = Some v ->
    (1 <= Vehicle.averageRating v <= 5)%Q /\ 1 <= Vehicle.totalReviews v.
Proof.
  intros oid u errors body db v Hinv H201 Hv.
  pose proof (run_review_keeps_ratings_in_range
                (CreateReview oid u errors body) db Hinv) as Hinv'.
  pose proof (createReview_rollup oid u errors body db H201 v Hv) as Hroll.
  simpl in Hinv'.
  pose proof (ratings_of_range _ (reviewController.vehicleId body) Hinv') as Hall.
  apply createReview_201 in H201 as (b & coll & _ & _ & Hcoll & Heq).
  assert (Hne : Review.ratings_of
                  (reviews (fst (reviewController.createReview oid u errors
                                   body db)))
                  (reviewController.vehicleId body) <> []).
  { rewrite Heq. simpl. unfold Review.ratings_of. intros Hnil.
    assert (Hin : In (reviewController.rating body)
              (List.map (fun kr => Review.rating (snd kr))
                 (List.filter
                    (fun kr => Pos.eqb (Review.vehicleId (snd kr))
                                 (reviewController.vehicleId body))
                    (map_to_list coll)))).
    { apply in_map_iff.
      exists (oid, Review.cast
                     {| Review.userId := id u;
                        Review.vehicleId := reviewController.vehicleId body;
                        Review.bookingId := reviewController.bookingId body;
                        Review.rating := reviewController.rating body;
                        Review.comment := reviewController.comment body |}).
      split; [reflexivity|]. apply filter_In. split.
      - apply list_elem_of_In, elem_of_map_to_list. rewrite Hcoll.
        apply lookup_insert_eq.
      - simpl. apply Pos.eqb_refl. }
    rewrite Hnil in Hin. destruct Hin. }
  destruct (Review.ratings_of _ _) as [|r rs] eqn:Hrs; [congruence|].
  destruct Hroll as [Havg Htot].
  pose proof (rounded_average_range (r :: rs) ltac:(discriminate) Hall) as Hr.
  split; [rewrite Havg; exact Hr|]. rewrite Htot. simpl length. lia.
Qed.

(** After the three reviews of the sample the car shows a rating within
    bounds. *)
Lemma createReview_rollup_within_bounds_witness :
  exists v : Vehicle.doc,
    vehicles Sample.reviewed_5_4_3 !! 7%positive = Some v
    /\ (1 <= Vehicle.averageRating v <= 5)%Q.
Proof.
  eexists. split; [vm_compute; reflexivity|].
  refine (proj1 (createReview_rollup_within_bounds 13 Sample.alice []
                   (Sample.review 7 3 3)
                   (fst (reviewController.createReview 12 Sample.bob []
                           (Sample.review 7 2 4)
                           (fst (reviewController.createReview 11 Sample.alice []
                                   (Sample.review 7 1 5)
                                   Sample.three_completed))))
                   _ _ _ _)).
  - do 2 apply (run_review_keeps_ratings_in_range (CreateReview _ _ _ _)).
    intros i r H. vm_compute in H. discriminate.
  - vm_compute. reflexivity.
  - vm_compute. reflexivity.
Defined.

Section ReviewRoute.

Implicit Types (db : DB) (body : reviewController.create_body) (s : string).

Lemma ltrim_length s : (String.length (ltrim s) <= String.length s)%nat.
Proof.
  induction s as [|c s IH]; simpl; [lia|].
  destruct (is_whitespace c); simpl; lia.
Qed.

Lemma rtrim_length s : (String.length (rtrim s) <= String.length s)%nat.
Proof.
  induction s as [|c s IH]; simpl; [lia|].
  destruct (rtrim s); [destruct (is_whitespace c)|]; simpl in *; lia.
Qed.

(** Trimming never lengthens: text within a bound stays within it. *)
Lemma maxlength_trim n s : maxlength n s = true -> maxlength n (trim s) = true.
Proof.
  unfold maxlength, trim. rewrite !Nat.leb_le.
  pose proof (ltrim_length s). pose proof (rtrim_length (ltrim s)). lia.
Qed.

Lemma maxlength_opt_trim n (o : option string) :
  maxlength_opt n o = true -> maxlength_opt n (option_map trim o) = true.
Proof. destruct o; simpl; [apply maxlength_trim | reflexivity]. Qed.

(** A string that does not begin with white space. *)
Lemma ltrim_head s :
  match ltrim s with
  | EmptyString => True
  | String c _ => is_whitespace c = false
  end.
Proof.
  induction s as [|c s IH]; simpl; [exact I|].
  destruct (is_whitespace c) eqn:Hc; [exact IH | exact Hc].
Qed.

Lemma rtrim_head s :
  match s with
  | EmptyString => True
  | String c _ => is_whitespace c = false
  end ->
  match rtrim s with
  | EmptyString => s = EmptyString
  | String c _ => is_whitespace c = false
  end.
Proof.
  destruct s as [|c s]; simpl; [reflexivity|]. intros Hc.
  destruct (rtrim s); [rewrite Hc|]; exact Hc.
Qed.

Lemma rtrim_rtrim s : rtrim (rtrim s) = rtrim s.
Proof.
  induction s as [|c s IH]; simpl; [reflexivity|].
  destruct (rtrim s) as [|d t] eqn:Ht.
  - destruct (is_whitespace c) eqn:Hc; simpl; [reflexivity|].
    rewrite Hc. reflexivity.
  - simpl in IH |- *. rewrite IH. reflexivity.
Qed.

(** Trimming twice is trimming once. *)
Lemma trim_trim s : trim (trim s) = trim s.
Proof.
  unfold trim.
  pose proof (rtrim_head (ltrim s) (ltrim_head s)) as Hh.
  assert (Hl : ltrim (rtrim (ltrim s)) = rtrim (ltrim s)).
  { destruct (rtrim (ltrim s)) as [|c t]; simpl; [reflexivity|].
    rewrite Hh. reflexivity. }
  rewrite Hl. apply rtrim_rtrim.
Qed.

Lemma option_map_trim_trim (o : option string) :
  option_map trim (option_map trim o) = option_map trim o.
Proof. destruct o; simpl; [rewrite trim_trim|]; reflexivity. Qed.

(** A body that passes the route's chain passes the schema validators. *)
Lemma reviewValidation_nil body :
  reviewController.reviewValidation body = [] ->
  1 <= reviewController.rating body <= 5
  /\ maxlength_opt 500 (reviewController.comment body) = true.
Proof.
  unfold reviewController.reviewValidation. intros H.
  rewrite isLength_max_opt_maxlength in H.
  apply app_eq_nil in H as [H1 H2].
  destruct (Z.leb 1 _ && Z.leb _ 5) eqn:Hr in H1; [|discriminate].
  destruct (maxlength_opt _ _) in H2 |- *; [|discriminate].
  apply andb_true_iff in Hr as [Ha Hb]. apply Z.leb_le in Ha, Hb.
  split; [lia | reflexivity].
Qed.

End ReviewRoute.

(** X19. The route [POST /api/reviews] answers 201 exactly when the body
    passes the validation chain, the booking named in it exists, is
    completed and belongs to the caller and the vehicle, the caller has
    not reviewed that booking yet, and the new [_id] is unused; the
    review is then stored with the comment trimmed. Strings are taken
    with one character for each code unit, below 256, where the
    [isLength] of the chain and the [maxlength] of the schema measure
    alike. *)
Theorem post_review_created_iff :
  forall (oid : ObjectId) (u : User) (body : reviewController.create_body)
         (db : DB),
    (http_status (snd (post_review oid u body db)) = 201
     <-> reviewController.reviewValidation body = []
         /\ (exists b, bookings db !! reviewController.bookingId body = Some b
                       /\ Booking.userId b = id u
                       /\ Booking.vehicleId b = reviewController.vehicleId body
                       /\ Booking.status b = Booking.completed)
         /\ (forall i r, reviews db !! i = Some r ->
               ~ (Review.userId r = id u
                  /\ Review.bookingId r = reviewController.bookingId body))
         /\ reviews db !! oid = None)
    /\ (http_status (snd (post_review oid u body db)) = 201 ->
        reviews (fst (post_review oid u body db)) !! oid
        = Some {| Review.userId := id u;
                  Review.vehicleId := reviewController.vehicleId body;
                  Review.bookingId := reviewController.bookingId body;
                  Review.rating := reviewController.rating body;
                  Review.comment :=
                    option_map trim (reviewController.comment body) |}).
Proof.
  intros oid u body db. split.
  - unfold post_review, reviewController.createReview.
    simpl reviewController.bookingId. simpl reviewController.vehicleId.
    split.
    + destruct (reviewController.reviewValidation body) eqn:Hval;
        [|discriminate].
      destruct (Review.completed_booking _ _ _ _) as [b|] eqn:Hb;
        [|discriminate].
      destruct (Review.findOne _ _) eqn:Hdup; [discriminate|].
      unfold Review.create, Review.save.
      destruct (Review.validate _); [discriminate|].
      destruct (Review.pre_save _ _ _); [discriminate|].
      destruct (reviews db !! oid) eqn:Hfresh; [discriminate|].
      intros _. split; [reflexivity|].
      apply completed_booking_Some in Hb. split; [exists b; exact Hb|].
      split; [|reflexivity]. intros i r Hi.
      apply by_user_booking_false with (i := i).
      exact (proj1 (Review_findOne_None _ _) Hdup i r Hi).
    + intros (Hval & (b & Hb) & Hnone & Hfresh).
      apply completed_booking_Some in Hb.
      assert (Hdup : Review.findOne
                       (Review.by_user_booking (id u)
                          (reviewController.bookingId body)) (reviews db)
                     = None).
      { apply Review_findOne_None. intros i r Hi.
        apply by_user_booking_false, (Hnone i r Hi). }
      rewrite Hval, Hb, Hdup. apply reviewValidation_nil in Hval as [Hr Hc].
      unfold Review.create, Review.save, Review.validate, Review.pre_save.
      simpl.
      rewrite (proj2 (validate_rating_None _) Hr).
      rewrite (maxlength_opt_trim _ _ (maxlength_opt_trim _ _ Hc)).
      simpl. rewrite Hb, Hfresh, Hdup. reflexivity.
  - intros H. unfold post_review in H |- *.
    apply createReview_201 in H as (b & coll & _ & _ & Hcoll & ->).
    simpl. rewrite Hcoll, lookup_insert_eq. unfold Review.cast. simpl.
    rewrite option_map_trim_trim. reflexivity.
Qed.



(** X21. The review handlers write only reviews and the two rollup
    fields: after any of them the bookings are what they were, no vehicle
    has appeared or disappeared, and every vehicle keeps its owner, name,
    daily price and [availability] flag; [updateReview] and
    [deleteReview] leave the vehicles untouched altogether. *)
Theorem review_operations_frame :
  forall (o : review_op) (db : DB),
    bookings (run_review o db) = bookings db
    /\ (forall v,
          Vehicle.pricePerDay <$> (vehicles (run_review o db) !! v)
            = Vehicle.pricePerDay <$> (vehicles db !! v)
          /\ Vehicle.availability <$> (vehicles (run_review o db) !! v)
             = Vehicle.availability <$> (vehicles db !! v)
          /\ Vehicle.owner <$> (vehicles (run_review o db) !! v)
             = Vehicle.owner <$> (vehicles db !! v)
          /\ Vehicle.name <$> (vehicles (run_review o db) !! v)
             = Vehicle.name <$> (vehicles db !! v))
    /\ (forall oid u errors body v,
          o = CreateReview oid u errors body ->
          v <> reviewController.vehicleId body ->
          vehicles (run_review o db) !! v = vehicles db !! v)
    /\ ((forall oid u errors body, o <> CreateReview oid u errors body) ->
        vehicles (run_review o db) = vehicles db).
Proof.
  intros o db.
  assert (Hcalc : forall coll v0 v,
            (Vehicle.pricePerDay
               <$> (Review.calcAverageRating coll v0 (vehicles db) !! v)
             = Vehicle.pricePerDay <$> (vehicles db !! v)
             /\ Vehicle.availability
                  <$> (Review.calcAverageRating coll v0 (vehicles db) !! v)
                = Vehicle.availability <$> (vehicles db !! v)
             /\ Vehicle.owner
                  <$> (Review.calcAverageRating coll v0 (vehicles db) !! v)
                = Vehicle.owner <$> (vehicles db !! v)
             /\ Vehicle.name
                  <$> (Review.calcAverageRating coll v0 (vehicles db) !! v)
                = Vehicle.name <$> (vehicles db !! v))
            /\ (v <> v0 ->
                Review.calcAverageRating coll v0 (vehicles db) !! v
                = vehicles db !! v)).
  { intros coll v0 v. unfold Review.calcAverageRating.
    destruct (decide (v0 = v)) as [->|Hne].
    - destruct (Review.ratings_of coll v); rewrite lookup_alter_eq;
        destruct (vehicles db !! v); simpl; repeat split; congruence.
    - destruct (Review.ratings_of coll v0); rewrite lookup_alter_ne by exact Hne;
        repeat split. }
  destruct o as [oid u errors body | u errors rid nr nc | u rid]; simpl.
  - destruct (createReview_cases oid u errors body db)
      as [-> | (r & _ & _ & _ & _ & ->)].
    + repeat split; intros; reflexivity.
    + simpl. split; [reflexivity|]. split; [intros v; apply Hcalc|].
      split.
      * intros oid0 u0 e0 body0 v [= _ _ _ <-] Hne. apply Hcalc, Hne.
      * intros H. exfalso. exact (H oid u errors body eq_refl).
  - destruct (updateReview_cases u errors rid nr nc db)
      as [-> | (r & _ & _ & _ & ->)]; simpl;
      (split; [reflexivity|]; split; [intros v; repeat split|];
       split; [intros; discriminate | reflexivity]).
  - destruct (deleteReview_cases u rid db) as [-> | (r & _ & _ & ->)]; simpl;
      (split; [reflexivity|]; split; [intros v; repeat split|];
       split; [intros; discriminate | reflexivity]).
Qed.

(** X22. Who may change a review: only its author may edit it, an admin
    included; its author or an admin may delete it. For a review written
    by someone else, [updateReview] answers 403 to every caller and
    [deleteReview] answers 403 to a caller who is not an admin, both
    storing nothing, while an admin's [deleteReview] removes the review
    and no other. *)
Theorem review_edit_rights :
  forall (u : User) (rid : ObjectId) (r : Review.doc) (db : DB),
    reviews db !! rid = Some r ->
    Review.userId r <> id u ->
    (forall new_rating new_comment,
       reviewController.updateReview u [] rid new_rating new_comment db
       = (db, json_message 403 false "Not authorized to update this review"))
    /\ (is_admin u = false ->
        reviewController.deleteReview u rid db
        = (db, json_message 403 false "Not authorized to delete this review"))
    /\ (is_admin u = true ->
        http_status (snd (reviewController.deleteReview u rid db)) = 200
        /\ reviews (fst (reviewController.deleteReview u rid db)) !! rid = None
        /\ forall i, i <> rid ->
             reviews (fst (reviewController.deleteReview u rid db)) !! i
             = reviews db !! i).
Proof.
  intros u rid r db Hr Hne. apply Pos.eqb_neq in Hne.
  split; [|split].
  - intros nr nc. unfold reviewController.updateReview. rewrite Hr, Hne.
    reflexivity.
  - intros Ha. unfold reviewController.deleteReview. rewrite Hr, Hne, Ha.
    reflexivity.
  - intros Ha. unfold reviewController.deleteReview. rewrite Hr, Hne, Ha.
    simpl. unfold Review.findByIdAndDelete.
    split; [reflexivity|]. split; [apply lookup_delete_eq|].
    intros i Hi. apply lookup_delete_ne. congruence.
Qed.

(** Bob may neither edit nor delete Alice's 3-star review. *)
Lemma review_edit_rights_witness :
  reviewController.deleteReview Sample.bob 13 Sample.reviewed_5_4_3
  = (Sample.reviewed_5_4_3,
     json_message 403 false "Not authorized to delete this review").
Proof.
  refine (proj1 (proj2 (review_edit_rights Sample.bob 13 _
                          Sample.reviewed_5_4_3 _ _)) _).
  - vm_compute. reflexivity.
  - vm_compute. discriminate.
  - reflexivity.
Defined.

(** X23. [getReviews] lists exactly the reviews that fit the query: every
    listed review is stored, has its rating within the bounds given and
    is for the vehicle and by the user given; [total] counts the stored
    reviews that fit; and pages 1 to [pagination.pages], one after the
    other, are those reviews in the order of the sort. *)
Theorem getReviews_lists_matching :
  forall (sort : list (ObjectId * Review.doc) -> list (ObjectId * Review.doc))
         (q : reviewQueries.list_query) (db : DB),
    (forall l, Permutation (sort l) l) ->
    (forall k r, In (k, r) (listed (reviewQueries.getReviews sort q db)) ->
       reviews db !! k = Some r
       /\ (forall m, reviewQueries.minRating q = Some m -> m <= Review.rating r)
       /\ (forall m, reviewQueries.maxRating q = Some m -> Review.rating r <= m)
       /\ (forall v, reviewQueries.vehicleId q = Some v -> Review.vehicleId r = v)
       /\ (forall x, reviewQueries.userId q = Some x -> Review.userId r = x))
    /\ (exists L,
          reviewQueries.getReviews sort q db = json_data 200 L
          /\ Query.total L
             = Z.of_nat (length (Query.find (reviewQueries.matches q)
                                   (reviews db)))
          /\ concat
               (List.map
                  (fun p => listed (reviewQueries.getReviews sort
                                      (reviewQueries.at_page q (Pos.of_nat p))
                                      db))
                  (seq 1 (Z.to_nat (Query.pages (Query.pagination L)))))
             = sort (Query.find (reviewQueries.matches q) (reviews db)))
    /\ (forall k r,
          In (k, r) (Query.find (reviewQueries.matches q) (reviews db))
          <-> reviews db !! k = Some r /\ reviewQueries.matches q k r = true).
Proof.
  intros sort q db Hperm. split; [|split].
  - intros k r Hin. simpl in Hin. apply skip_limit_In in Hin.
    apply (Permutation_in _ (Hperm _)) in Hin.
    apply find_In in Hin as [Hk Hm]. split; [exact Hk|].
    unfold reviewQueries.matches in Hm.
    apply andb_true_iff in Hm as [Hm Hmax].
    apply andb_true_iff in Hm as [Hm Hmin].
    apply andb_true_iff in Hm as [Hv Hu].
    split; [|split; [|split]].
    + intros m Hq. rewrite Hq in Hmin. apply Z.leb_le, Hmin.
    + intros m Hq. rewrite Hq in Hmax. apply Z.leb_le, Hmax.
    + intros v Hq. rewrite Hq in Hv. apply Pos.eqb_eq, Hv.
    + intros x Hq. rewrite Hq in Hu. apply Pos.eqb_eq, Hu.
  - eexists. split; [reflexivity|]. split; [reflexivity|].
    apply (listing_pages_cover (reviewQueries.matches q) sort
             (reviewQueries.page q) (reviewQueries.limit q) (reviews db) Hperm).
  - intros k r. apply find_In.
Qed.

(** Asked for the reviews of 4 stars and more, the sample shows two. *)
Lemma getReviews_lists_matching_witness :
  exists L,
    reviewQueries.getReviews (fun l => l)
      {| reviewQueries.page := 1; reviewQueries.limit := 10;
         reviewQueries.vehicleId := Some 7%positive;
         reviewQueries.userId := None;
         reviewQueries.minRating := Some 4;
         reviewQueries.maxRating := None |} Sample.reviewed_5_4_3
    = json_data 200 L
    /\ Query.total L = 2.
Proof.
  destruct (proj1 (proj2
    (getReviews_lists_matching (fun l => l)
       {| reviewQueries.page := 1; reviewQueries.limit := 10;
          reviewQueries.vehicleId := Some 7%positive;
          reviewQueries.userId := None;
          reviewQueries.minRating := Some 4;
          reviewQueries.maxRating := None |} Sample.reviewed_5_4_3
       (fun l => Permutation_refl l)))) as (L & HL & Ht & _).
  exists L. split; [exact HL|]. rewrite Ht. vm_compute. reflexivity.
Defined.

(** X24. On the create path the rollup is right: after a successful
    [createReview] the reviewed vehicle counts in [totalReviews] all the
    stored reviews of that vehicle, the new one included, and its
    [averageRating] is a whole number of tenths within a twentieth of
    the exact mean of their ratings. *)
Theorem createReview_rollup_is_rounded_mean :
  forall (oid : ObjectId) (u : User) (errors : list string)
         (body : reviewController.create_body) (db : DB) (v : Vehicle.doc),
    http_status (snd (reviewController.createReview oid u errors body db)) = 201 ->
    vehicles (fst (reviewController.createReview oid u errors body db))
      !! reviewController.vehicleId body = Some v ->
    let rs := Review.ratings_of
                (reviews (fst (reviewController.createReview oid u errors
                                 body db)))
                (reviewController.vehicleId body) in
    let mean := (inject_Z (Review.sum rs) / inject_Z (Z.of_nat (length rs)))%Q in
    In (reviewController.rating body) rs
    /\ Vehicle.totalReviews v = Z.of_nat (length rs)
    /\ (mean - (1 # 20) < Vehicle.averageRating v <= mean + (1 # 20))%Q
    /\ (Vehicle.averageRating v * inject_Z 10
        == inject_Z (Math_round (mean * inject_Z 10)))%Q.
Proof.
  intros oid u errors body db v H201 Hv rs mean.
  pose proof (createReview_rollup oid u errors body db H201 v Hv) as Hroll.
  fold rs in Hroll.
  assert (Hin : In (reviewController.rating body) rs).
  { subst rs.
    apply createReview_201 in H201 as (b & coll & _ & _ & Hcoll & ->).
    simpl. unfold Review.ratings_of. apply in_map_iff.
    exists (oid, Review.cast
                   {| Review.userId := id u;
                      Review.vehicleId := reviewController.vehicleId body;
                      Review.bookingId := reviewController.bookingId body;
                      Review.rating := reviewController.rating body;
                      Review.comment := reviewController.comment body |}).
    split; [reflexivity|]. apply filter_In. split.
    - apply list_elem_of_In, elem_of_map_to_list. rewrite Hcoll.
      apply lookup_insert_eq.
    - simpl. apply Pos.eqb_refl. }
  split; [exact Hin|].
  pose proof (rounded_average_nearest_tenth rs) as [Hnear Htenth].
  fold mean in Hnear, Htenth.
  destruct rs as [|r rs'] eqn:Hrs; [destruct Hin|].
  destruct Hroll as [Havg Htot].
  split; [exact Htot|]. split; [rewrite Havg; exact Hnear|].
  rewrite Havg. exact Htenth.
Qed.

(** After the reviews 5, 4 and 3 the car counts three reviews. *)
Lemma createReview_rollup_is_rounded_mean_witness :
  exists v : Vehicle.doc,
    vehicles Sample.reviewed_5_4_3 !! 7%positive = Some v
    /\ Vehicle.totalReviews v = 3.
Proof.
  eexists. split; [vm_compute; reflexivity|].
  refine (eq_trans
            (proj1 (proj2
               (createReview_rollup_is_rounded_mean 13 Sample.alice []
                  (Sample.review 7 3 3)
                  (fst (reviewController.createReview 12 Sample.bob []
                          (Sample.review 7 2 4)
                          (fst (reviewController.createReview 11 Sample.alice []
                                  (Sample.review 7 1 5)
                                  Sample.three_completed))))
                  _ _ _))) _).
  - vm_compute. reflexivity.
  - vm_compute. reflexivity.
  - vm_compute. reflexivity.
Defined.
